(** * YouTube Video Summarizer: the transcript acquisition policy of [app.py]

    A shallow embedding of the decision logic of [src/app.py]: the URL
    parsing of the page script, [download_audio], [transcribe_audio],
    [get_transcript], the two memoised wrappers and the three button
    handlers.  The four external services (caption retrieval, audio
    download, speech-to-text, chat completion), the temporary-file calls of
    the operating system and the widgets of the UI runtime are collaborators:
    they are fields of a record of services over which every theorem is
    universally quantified, and every call to one of them is written to a
    call log in the program state. *)

From stdpp Require Import gmap strings list fin_maps.
From Stdlib Require Import String Ascii.
From Stdlib Require QArith.QArith_base.

Open Scope string_scope.
Open Scope list_scope.
Open Scope stdpp_scope.

(* ===================================================================== *)
(** * Python strings                                                      *)
(* ===================================================================== *)

(** A Python [str] is modelled as a [string] (a sequence of characters).
    Every separator the program searches for is ASCII, so the result is the
    same whether a character stands for a code point or for a byte of the
    UTF-8 encoding. *)

Module PyStr.

(** [s.startswith(sep)] *)
Fixpoint startswith (sep s : string) : bool :=
  match sep, s with
  | EmptyString, _ => true
  | String a sep', String b s' => if Ascii.eqb a b then startswith sep' s' else false
  | String _ _, EmptyString => false
  end.

(** [sep in s] *)
Fixpoint contains (sep s : string) : bool :=
  startswith sep s ||
  match s with
  | EmptyString => false
  | String _ s' => contains sep s'
  end.

(** The scan of [s.split(sep)] for a non-empty [sep]: left to right, cutting
    at every occurrence of [sep] that does not overlap the previous one.
    [skip] counts the characters of a matched separator still to be passed
    over, [piece] is the piece collected since the last cut. *)
Fixpoint split_from (sep s : string) (skip : nat) (piece : string) : list string :=
  match s with
  | EmptyString => [piece]
  | String c s' =>
      match skip with
      | S k => split_from sep s' k piece
      | O =>
          if startswith sep s
          then piece :: split_from sep s' (String.length sep - 1) EmptyString
          else split_from sep s' 0 (piece +:+ String c EmptyString)
      end
  end.

(** [s.split(sep)] *)
Definition split (sep s : string) : list string := split_from sep s 0 "".

(** [sep.join(l)] *)
Fixpoint join (sep : string) (l : list string) : string :=
  match l with
  | [] => ""
  | [x] => x
  | x :: l' => x +:+ sep +:+ join sep l'
  end.

(** [s.endswith("/")] *)
Fixpoint endswith_slash (s : string) : bool :=
  match s with
  | EmptyString => false
  | String c EmptyString => Ascii.eqb c "/"
  | String _ s' => endswith_slash s'
  end.

(** [s == "/" * len(s)] *)
Fixpoint all_slashes (s : string) : bool :=
  match s with
  | EmptyString => true
  | String c s' => Ascii.eqb c "/" && all_slashes s'
  end.

(** [s[:s.rfind("/") + 1]] *)
Fixpoint upto_last_slash (s : string) : string :=
  match s with
  | EmptyString => ""
  | String c s' =>
      if contains "/" s' then String c (upto_last_slash s')
      else if Ascii.eqb c "/" then "/" else ""
  end.

(** [s.rstrip("/")] *)
Fixpoint rstrip_slash (s : string) : string :=
  match s with
  | EmptyString => ""
  | String c s' =>
      match rstrip_slash s' with
      | EmptyString => if Ascii.eqb c "/" then "" else String c ""
      | r => String c r
      end
  end.

(** The character [c] occurs in [s]. *)
Fixpoint has_char (c : ascii) (s : string) : bool :=
  match s with
  | EmptyString => false
  | String b s' => Ascii.eqb c b || has_char c s'
  end.

(** The last character of a string, if it has one. *)
Fixpoint last_char (s : string) : option ascii :=
  match s with
  | EmptyString => None
  | String c EmptyString => Some c
  | String _ s' => last_char s'
  end.

End PyStr.

(** [posixpath.join(a, b)] for two components. *)
Definition os_path_join (a b : string) : string :=
  if PyStr.startswith "/" b then b
  else if bool_decide (a = "") || PyStr.endswith_slash a then a +:+ b
  else a +:+ "/" +:+ b.

(** [posixpath.dirname(p)] *)
Definition os_path_dirname (p : string) : string :=
  let head := PyStr.upto_last_slash p in
  if negb (bool_decide (head = "")) && negb (PyStr.all_slashes head)
  then PyStr.rstrip_slash head
  else head.

(* ===================================================================== *)
(** * Exceptions and results                                              *)
(* ===================================================================== *)

(** The exceptions the program raises itself, and [LibraryError] for an
    exception raised inside one of the external libraries (its argument is
    what [str(e)] gives).  All of them are instances of [Exception]; only
    [IndexError] is caught by the [except IndexError] clause. *)
Inductive exn : Type :=
| IndexError
| ValueError (msg : string)
| AttributeError (msg : string)
| OSError (msg : string)
| Exception (msg : string)
| LibraryError (msg : string).

Global Instance exn_eq_dec : EqDecision exn.
Proof. solve_decision. Defined.

(** [str(e)] *)
Definition str_exn (e : exn) : string :=
  match e with
  | IndexError => "list index out of range"
  | ValueError m | AttributeError m | OSError m | Exception m | LibraryError m => m
  end.

Inductive result (A : Type) : Type :=
| Ok (a : A)
| Raise (e : exn).
Arguments Ok {A} a.
Arguments Raise {A} e.

Global Instance result_ret : MRet result := @Ok.
Global Instance result_bind : MBind result := λ A B f r,
  match r with
  | Ok a => f a
  | Raise e => Raise e
  end.

(** [l[i]] on a Python list. *)
Definition getitem {A : Type} (l : list A) (i : nat) : result A :=
  match l !! i with
  | Some x => Ok x
  | None => Raise IndexError
  end.

(* ===================================================================== *)
(** * The Video-ID extractor (lines 224-229 of the page script)          *)
(* ===================================================================== *)

Definition extract_video_id (url : string) : result string :=
  if PyStr.contains "youtu.be" url then
    rest ← getitem (PyStr.split "youtu.be/" url) 1;
    getitem (PyStr.split "?" rest) 0
  else if PyStr.contains "youtube.com" url then
    rest ← getitem (PyStr.split "v=" url) 1;
    getitem (PyStr.split "&" rest) 0
  else Raise (ValueError "Invalid YouTube URL format").

(* ===================================================================== *)
(** * Data of the collaborators                                           *)
(* ===================================================================== *)

(** A caption track as the caption-retrieval library describes it.  The
    program reads only [language_code]. *)
Record Transcript : Type := {
  track_video : string;
  language_code : string;
  is_generated : bool
}.

(** What [list_transcripts] returns: the tracks the video has. *)
Definition TranscriptList : Type := list Transcript.

(** One timed segment of a fetched track; times in milliseconds.  The
    program reads only the ['text'] key. *)
Record Snippet : Type := {
  snippet_text : string;
  snippet_start : Z;
  snippet_duration : Z
}.

(** An audio stream of the download library. *)
Record Stream : Type := {
  itag : nat;
  mime_type : string
}.

(** The arguments of [client.chat.completions.create]: the messages as
    (role, content) pairs, the model, and the two optional settings. *)
Record CompletionRequest : Type := {
  messages : list (string * string);
  model : string;
  temperature : option QArith_base.Q;
  max_tokens : option nat
}.

(** The dictionary [get_transcript] returns. *)
Record TranscriptResult : Type := {
  text : string;
  original_language : string
}.

Global Instance Transcript_eq_dec : EqDecision Transcript.
Proof. solve_decision. Defined.
Global Instance TranscriptResult_eq_dec : EqDecision TranscriptResult.
Proof. solve_decision. Defined.

(** An entry of the file system: a regular file or a directory. *)
Inductive node : Type := File | Dir.

(** A call to a collaborator, in the order the program makes them. *)
Inductive call : Type :=
| CallListTranscripts (video_id : string)
| CallFindManual (tl : TranscriptList) (langs : list string)
| CallFindGenerated (tl : TranscriptList) (langs : list string)
| CallTranslate (t : Transcript) (lang : string)
| CallFetch (t : Transcript)
| CallYouTube (url : string)
| CallMkdtemp
| CallStreamDownload (st : Stream) (output_path filename : string)
| CallWhisper (audio_path : string)
| CallRemove (path : string)
| CallRmdir (path : string)
| CallChatCompletion (req : CompletionRequest).

(** What the program shows on the page or writes to its log.  Layout
    containers (columns, tabs, spinners) show nothing of their own and are
    left out. *)
Inductive element : Type :=
| st_title (body : string)
| st_markdown (body : string)
| st_write (body : string)
| st_info (body : string)
| st_warning (body : string)
| st_error (body : string)
| logger_error (body : string).

(** The collaborators.  Each function gives the outcome of one call: a
    value, or the exception the library raises. *)
Record Services : Type := {
  (* youtube_transcript_api *)
  list_transcripts : string → result TranscriptList;
  find_manually_created_transcript : TranscriptList → list string → result Transcript;
  find_generated_transcript : TranscriptList → list string → result Transcript;
  translate : Transcript → string → result Transcript;
  fetch : Transcript → result (list Snippet);
  (* pytube: YouTube(url).streams.filter(only_audio=True).first() *)
  first_audio_stream : string → result (option Stream);
  (* pytube: stream.download(output_path, filename) *)
  stream_download : Stream → string → string → result unit;
  (* tempfile.mkdtemp(): the name of the directory it creates *)
  mkdtemp : gmap string node → result string;
  (* the operating system refuses to remove this path *)
  os_denied : string → bool;
  (* whisper_model.transcribe(path)["text"] *)
  whisper_transcribe : string → result string;
  (* client.chat.completions.create(...).choices[0].message.content *)
  chat_completions_create : CompletionRequest → result string
}.

(* ===================================================================== *)
(** * Program state and the monad of the program                          *)
(* ===================================================================== *)

Record State : Type := {
  fs : gmap string node;
  now : nat;
  transcript_cache : gmap (string * string) (TranscriptResult * nat);
  summary_cache : gmap string (string * nat);
  calls : list call;
  screen : list element
}.

Definition set_fs (f : gmap string node → gmap string node) (s : State) : State :=
  {| fs := f (fs s); now := now s; transcript_cache := transcript_cache s;
     summary_cache := summary_cache s; calls := calls s; screen := screen s |}.

Definition set_transcript_cache
  (c : gmap (string * string) (TranscriptResult * nat)) (s : State) : State :=
  {| fs := fs s; now := now s; transcript_cache := c;
     summary_cache := summary_cache s; calls := calls s; screen := screen s |}.

Definition set_summary_cache (c : gmap string (string * nat)) (s : State) : State :=
  {| fs := fs s; now := now s; transcript_cache := transcript_cache s;
     summary_cache := c; calls := calls s; screen := screen s |}.

Definition log_call (c : call) (s : State) : State :=
  {| fs := fs s; now := now s; transcript_cache := transcript_cache s;
     summary_cache := summary_cache s; calls := calls s ++ [c]; screen := screen s |}.

Definition show (e : element) (s : State) : State :=
  {| fs := fs s; now := now s; transcript_cache := transcript_cache s;
     summary_cache := summary_cache s; calls := calls s; screen := screen s ++ [e] |}.

(** Time passes between two user actions. *)
Definition tick (d : nat) (s : State) : State :=
  {| fs := fs s; now := now s + d; transcript_cache := transcript_cache s;
     summary_cache := summary_cache s; calls := calls s; screen := screen s |}.

(** A computation of the program: it runs from a state and ends with a
    value or a raised exception, and a state.  What was done before an
    exception stays done. *)
Definition M (A : Type) : Type := State → result A * State.

Global Instance M_ret : MRet M := λ A a s, (Ok a, s).
Global Instance M_bind : MBind M := λ A B f m s,
  match m s with
  | (Ok a, s') => f a s'
  | (Raise e, s') => (Raise e, s')
  end.

Definition raise {A : Type} (e : exn) : M A := λ s, (Raise e, s).

(** [try: body  except Exception as e: handler e] and the bare [except:] *)
Definition try_except {A : Type} (body : M A) (handler : exn → M A) : M A := λ s,
  match body s with
  | (Ok a, s') => (Ok a, s')
  | (Raise e, s') => handler e s'
  end.

Definition lift {A : Type} (r : result A) : M A := λ s, (r, s).

(** A call to a collaborator that touches nothing but the call log. *)
Definition external {A : Type} (c : call) (r : result A) : M A := λ s, (r, log_call c s).

Definition st (e : element) : M unit := λ s, (Ok (), show e s).

(* ===================================================================== *)
(** * Constants of the program                                            *)
(* ===================================================================== *)

(** The line feed and the double quote, for the multi-line literals. *)
Definition nl : string := String "010"%char EmptyString.
Definition dq : string := String "034"%char EmptyString.

(** The language list both caption look-ups are given, in priority order. *)
Definition supported_languages : list string :=
  ["en"; "hi"; "mr"; "es"; "fr"; "de"; "ja"; "ko"; "ru"].

Definition prompt : string :=
  PyStr.join nl [
    "You are an advanced AI specializing in text summarization. Your task is to generate a structured and detailed summary of a YouTube transcript.";
    "";
    "Instructions:";
    "1. Extract all key points, facts, and relevant details";
    "2. Provide a well-organized, structured summary";
    "3. Use clear and engaging language";
    "4. Focus on the main topics and important information";
    "5. Be concise but comprehensive";
    "6. Avoid repetition";
    "7. Do not include any reasoning steps or self-reflections";
    "8. Do not mention sponsorships or brand names";
    "9. End with " +:+ dq +:+ "Have a nice day!" +:+ dq;
    "";
    "Output Format:";
    "1. Summary: A clear overview of the main topics";
    "2. Key Points: Important facts and details in bullet points";
    "3. Insights: Deep observations and analysis";
    "";
    "Now, please summarize the following transcript:" ].

(** The f-string of the embedded player. *)
Definition video_embed (video_id : string) : string :=
  PyStr.join nl [
    "";
    "                <div style=" +:+ dq +:+ "position: relative; padding-bottom: 56.25%; height: 0; overflow: hidden; border-radius: 12px;" +:+ dq +:+ ">";
    "                    <iframe src=" +:+ dq +:+ "https://www.youtube.com/embed/" +:+ video_id +:+ dq +:+ " ";
    "                        style=" +:+ dq +:+ "position: absolute; top: 0; left: 0; width: 100%; height: 100%;" +:+ dq +:+ " ";
    "                        frameborder=" +:+ dq +:+ "0" +:+ dq +:+ " ";
    "                        allow=" +:+ dq +:+ "accelerometer; autoplay; clipboard-write; encrypted-media; gyroscope; picture-in-picture" +:+ dq +:+ " ";
    "                        allowfullscreen>";
    "                    </iframe>";
    "                </div>";
    "            " ].

(** The banner [get_transcript] shows before it re-raises. *)
Definition error_banner : element :=
  st_error "Error fetching transcript. Please make sure the video URL is valid.".

(** The warning of the speech-to-text fallback. *)
Definition stt_warning : element :=
  st_warning "No YouTube subtitles found. Falling back to speech-to-text...".

(** The banner of the [except IndexError] clause of the page script. *)
Definition invalid_url_banner : element :=
  st_error "Invalid YouTube URL. Please enter a valid YouTube video URL.".

(** The time-to-live of both memoised wrappers, in seconds. *)
Definition ttl : nat := 3600.

(* ===================================================================== *)
(** * The memoisation decorator                                           *)
(* ===================================================================== *)

(** Modelled from the spec: the decorator [st.cache_data(ttl=3600)] belongs
    to the UI framework, which is not part of the repository.  The spec
    describes it as a memoisation of results "scoped per input key with a
    fixed expiry window": a table from the arguments of the call to the
    value returned and the time it was stored.  A call whose key has an
    entry younger than [ttl] returns the stored value and does not run the
    body; any other call runs the body and stores the value it returns.  A
    body that raises stores nothing.  What the framework does besides
    (copying the value, showing again what the body showed) is left out. *)
Definition cache_data {K V : Type} `{Countable K}
    (get : State → gmap K (V * nat))
    (set : gmap K (V * nat) → State → State)
    (key : K) (body : M V) : M V := λ s,
  let run :=
    match body s with
    | (Ok v, s') => (Ok v, set (<[key := (v, now s')]> (get s')) s')
    | (Raise e, s') => (Raise e, s')
    end in
  match get s !! key with
  | Some (v, stored_at) => if bool_decide (now s < stored_at + ttl) then (Ok v, s) else run
  | None => run
  end.

(* ===================================================================== *)
(** * The program                                                         *)
(* ===================================================================== *)

Section Program.

Variable env : Services.

(** ** Calls to the collaborators *)

Definition call_list_transcripts (video_id : string) : M TranscriptList :=
  external (CallListTranscripts video_id) (list_transcripts env video_id).

Definition call_find_manually_created_transcript
    (tl : TranscriptList) (langs : list string) : M Transcript :=
  external (CallFindManual tl langs) (find_manually_created_transcript env tl langs).

Definition call_find_generated_transcript
    (tl : TranscriptList) (langs : list string) : M Transcript :=
  external (CallFindGenerated tl langs) (find_generated_transcript env tl langs).

Definition call_translate (t : Transcript) (lang : string) : M Transcript :=
  external (CallTranslate t lang) (translate env t lang).

Definition call_fetch (t : Transcript) : M (list Snippet) :=
  external (CallFetch t) (fetch env t).

Definition call_first_audio_stream (url : string) : M (option Stream) :=
  external (CallYouTube url) (first_audio_stream env url).

Definition call_whisper (audio_path : string) : M string :=
  external (CallWhisper audio_path) (whisper_transcribe env audio_path).

Definition call_chat_completion (req : CompletionRequest) : M string :=
  external (CallChatCompletion req) (chat_completions_create env req).

(** [tempfile.mkdtemp()]: the directory exists afterwards. *)
Definition call_mkdtemp : M string := λ s,
  match mkdtemp env (fs s) with
  | Ok d => (Ok d, set_fs (insert d Dir) (log_call CallMkdtemp s))
  | Raise e => (Raise e, log_call CallMkdtemp s)
  end.

(** [stream.download(output_path, filename)]: on success the file exists. *)
Definition call_stream_download (strm : Stream) (output_path filename : string) : M unit := λ s,
  let s1 := log_call (CallStreamDownload strm output_path filename) s in
  match stream_download env strm output_path filename with
  | Ok _ => (Ok (), set_fs (insert (os_path_join output_path filename) File) s1)
  | Raise e => (Raise e, s1)
  end.

(** [os.remove(path)] *)
Definition os_remove (path : string) : M unit := λ s,
  let s1 := log_call (CallRemove path) s in
  match fs s !! path with
  | Some File =>
      if os_denied env path then (Raise (OSError "Permission denied"), s1)
      else (Ok (), set_fs (delete path) s1)
  | Some Dir => (Raise (OSError "Is a directory"), s1)
  | None => (Raise (OSError "No such file or directory"), s1)
  end.

(** [os.rmdir(path)]: only an empty directory is removed. *)
Definition os_rmdir (path : string) : M unit := λ s,
  let s1 := log_call (CallRmdir path) s in
  match fs s !! path with
  | Some Dir =>
      if os_denied env path then (Raise (OSError "Permission denied"), s1)
      else if bool_decide (map_Forall (λ p _, os_path_dirname p ≠ path) (fs s))
      then (Ok (), set_fs (delete path) s1)
      else (Raise (OSError "Directory not empty"), s1)
  | Some File => (Raise (OSError "Not a directory"), s1)
  | None => (Raise (OSError "No such file or directory"), s1)
  end.

(** ** [download_audio] (lines 147-160) *)

Definition download_audio (url : string) : M string :=
  try_except
    (audio_stream ← call_first_audio_stream url;
     temp_dir ← call_mkdtemp;
     let temp_audio_path := os_path_join temp_dir "audio.mp4" in
     match audio_stream with
     | Some strm => call_stream_download strm temp_dir "audio.mp4"
     | None => raise (AttributeError "'NoneType' object has no attribute 'download'")
     end;;
     mret temp_audio_path)
    (λ e, raise (Exception ("Error downloading audio: " +:+ str_exn e))).

(** ** [transcribe_audio] (lines 162-168) *)

Definition transcribe_audio (audio_path : string) : M string :=
  try_except
    (call_whisper audio_path)
    (λ e, raise (Exception ("Error transcribing audio: " +:+ str_exn e))).

(** ** [get_transcript] (lines 170-215) *)

(** The innermost [except:] block (lines 185-203): download, transcribe,
    clean up, return. *)
Definition speech_to_text_fallback (url : string) : M TranscriptResult :=
  st stt_warning;;
  audio_path ← download_audio url;
  transcribed_text ← transcribe_audio audio_path;
  try_except
    (os_remove audio_path;;
     os_rmdir (os_path_dirname audio_path))
    (λ _, mret ());;
  mret {| text := transcribed_text; original_language := "auto-detected" |}.

(** The nested [try] of lines 175-203.  It either leaves the block with a
    track and its language ([inl]), or returns from the function with the
    speech-to-text result ([inr]). *)
Definition find_transcript (url : string) (transcript_list : TranscriptList)
    : M (Transcript * string + TranscriptResult) :=
  try_except
    (transcript ← call_find_manually_created_transcript transcript_list supported_languages;
     mret (inl (transcript, language_code transcript)))
    (λ _,
      try_except
        (transcript ← call_find_generated_transcript transcript_list supported_languages;
         mret (inl (transcript, language_code transcript)))
        (λ _,
          r ← speech_to_text_fallback url;
          mret (inr r))).

(** Lines 205-211: translate the track when its language is not the one
    asked for, fetch it and join the segments. *)
Definition fetch_text (transcript : Transcript) (original_lang target_lang : string)
    : M TranscriptResult :=
  transcript ←
    (if decide (target_lang ≠ original_lang)
     then call_translate transcript target_lang
     else mret transcript);
  snippets ← call_fetch transcript;
  mret {| text := PyStr.join " " (snippet_text <$> snippets);
          original_language := original_lang |}.

Definition get_transcript (url target_lang : string) : M TranscriptResult :=
  try_except
    (video_id ← lift (getitem (PyStr.split "v=" url) 1);
     transcript_list ← call_list_transcripts video_id;
     found ← find_transcript url transcript_list;
     match found with
     | inr r => mret r
     | inl (transcript, original_lang) => fetch_text transcript original_lang target_lang
     end)
    (λ e,
      st error_banner;;
      raise e).

(** ** The memoised wrappers (lines 48-68) *)

Definition get_cached_transcript (url target_lang : string) : M TranscriptResult :=
  cache_data transcript_cache set_transcript_cache (url, target_lang)
    (get_transcript url target_lang).

Definition generate_cached_summary (transcript_text : string) : M string :=
  cache_data summary_cache set_summary_cache transcript_text
    (try_except
       (call_chat_completion
          {| messages :=
               [("system", "You are a helpful assistant that creates detailed summaries of YouTube videos.");
                ("user", prompt +:+ nl +:+ nl +:+ transcript_text)];
             model := "llama-3.3-70b-versatile";
             temperature := Some (QArith_base.Qmake 7 10);
             max_tokens := Some 2000 |})
       (λ e,
         st (logger_error ("Error generating summary: " +:+ str_exn e));;
         raise e)).

(** ** The page script (lines 218-309) *)

(** What the user has entered and which button was pressed for this run. *)
Record Widgets : Type := {
  url_input : string;
  target_language : string;
  user_question : string;
  summary_btn : bool;
  ask_btn : bool;
  transcript_btn : bool
}.

(** Lines 267-276: the "Generate Summary" button. *)
Definition summary_action (url : string) : M unit :=
  try_except
    (transcript_data ← get_cached_transcript url "en";
     summary ← generate_cached_summary (text transcript_data);
     st (st_markdown "### Summary");;
     st (st_write summary))
    (λ e,
      st (logger_error ("Error in summary generation: " +:+ str_exn e));;
      st (st_error "An error occurred while generating the summary. Please try again.")).

(** Lines 281-292: the "Ask AI" button. *)
Definition ask_action (url question : string) : M unit :=
  try_except
    (transcript_data ← get_transcript url "en";
     let chat_prompt :=
       "Based on this video transcript: " +:+ text transcript_data +:+ nl +:+ nl +:+
       "Question: " +:+ question +:+ nl +:+ nl +:+ "Answer:" in
     answer ← call_chat_completion
       {| messages := [("user", chat_prompt)];
          model := "llama-3.3-70b-versatile";
          temperature := None;
          max_tokens := None |};
     st (st_write answer))
    (λ e, st (st_error ("An error occurred: " +:+ str_exn e))).

(** Lines 295-304: the "Get Transcript" button. *)
Definition transcript_action (url lang : string) : M unit :=
  try_except
    (transcript_data ← get_cached_transcript url lang;
     st (st_info ("Original video language detected: " +:+ original_language transcript_data));;
     st (st_markdown "### Video Transcription");;
     st (st_write (text transcript_data)))
    (λ e, st (st_error ("An error occurred while fetching transcript: " +:+ str_exn e))).

Definition when (b : bool) (m : M unit) : M unit := if b then m else mret ().

(** One run of the script. *)
Definition script (w : Widgets) : M unit :=
  st (st_title "YouTube Video Summarizer");;
  let url := url_input w in
  if bool_decide (url = "") then mret ()
  else
    try_except
      (video_id ← lift (extract_video_id url);
       st (st_markdown (video_embed video_id));;
       st (st_markdown "### Transcript");;
       when (summary_btn w) (summary_action url);;
       st (st_markdown "### Ask AI about the video");;
       when (negb (bool_decide (user_question w = "")) && ask_btn w)
         (ask_action url (user_question w));;
       when (transcript_btn w) (transcript_action url (target_language w)))
      (λ e,
        match e with
        | IndexError => st invalid_url_banner
        | _ => st (st_error ("An unexpected error occurred: " +:+ str_exn e))
        end).

End Program.

(** The same widgets with another choice in the language selector. *)
Definition with_language (lang : string) (w : Widgets) : Widgets :=
  {| url_input := url_input w; target_language := lang;
     user_question := user_question w; summary_btn := summary_btn w;
     ask_btn := ask_btn w; transcript_btn := transcript_btn w |}.

(** ** What a caption track gives *)

(** The track the text is fetched from: the track itself, or its
    translation when the language asked for is another one. *)
Definition translated (env : Services) (t : Transcript) (target : string) : result Transcript :=
  if decide (target ≠ language_code t) then translate env t target else Ok t.

(** The outcome of lines 205-211 for the track [t]. *)
Definition caption_result (env : Services) (t : Transcript) (target : string)
    : result TranscriptResult :=
  t' ← translated env t target;
  snippets ← fetch env t';
  Ok {| text := PyStr.join " " (snippet_text <$> snippets);
        original_language := language_code t |}.

(** The calls of lines 205-211 for the track [t]. *)
Definition caption_calls (env : Services) (t : Transcript) (target : string) : list call :=
  if decide (target ≠ language_code t)
  then CallTranslate t target ::
       match translate env t target with
       | Ok t' => [CallFetch t']
       | Raise _ => []
       end
  else [CallFetch t].

(** The [except Exception] clause of [get_transcript], applied to an
    outcome: a raised exception is shown and raised again. *)
Definition report (out : result TranscriptResult * State) : result TranscriptResult * State :=
  match out with
  | (Ok r, s) => (Ok r, s)
  | (Raise e, s) => (Raise e, show error_banner s)
  end.

(** ** Shapes of calls *)

(** The calls of the audio path: download, transcription, clean-up. *)
Definition is_audio_call (c : call) : bool :=
  match c with
  | CallYouTube _ | CallMkdtemp | CallStreamDownload _ _ _
  | CallWhisper _ | CallRemove _ | CallRmdir _ => true
  | _ => false
  end.

(** The call belongs to the audio path. *)
Definition audio (c : call) : Prop := is_audio_call c = true.

(** Every translation the call asks for is a translation into [lang]. *)
Definition translates_into (lang : string) (c : call) : Prop :=
  match c with
  | CallTranslate _ l => l = lang
  | _ => True
  end.

(** A computation only appends to the call log, and every call it appends
    satisfies [P]. *)
Definition appends {A : Type} (P : call → Prop) (m : M A) : Prop :=
  ∀ s, ∃ tail, calls (m s).2 = calls s ++ tail ∧ Forall P tail.

(* ===================================================================== *)
(** * A reference caption service and a reference machine                 *)
(* ===================================================================== *)

(** How the caption library looks a track up: the languages are tried in
    the order given, and the first one that has a track of the wanted kind
    wins; with none, [NoTranscriptFound] is raised. *)
Fixpoint find_track (generated : bool) (tl : TranscriptList) (langs : list string)
    : result Transcript :=
  match langs with
  | [] => Raise (LibraryError "NoTranscriptFound")
  | l :: langs' =>
      match List.find (λ t, bool_decide (language_code t = l ∧ is_generated t = generated)) tl with
      | Some t => Ok t
      | None => find_track generated tl langs'
      end
  end.

(** A machine for the examples: the video [video] has the tracks [tracks],
    [content] gives the segments of a track, a translation is a generated
    track in the target language, the audio stream downloads, the temporary
    directory is [/tmp/tmp0], and [stt] is what speech-to-text gives. *)
Definition machine (video : string) (tracks : TranscriptList)
    (content : Transcript → result (list Snippet))
    (stt : result string) (denied : string → bool) : Services :=
  {| list_transcripts := λ v,
       if bool_decide (v = video) then Ok tracks else Raise (LibraryError "VideoUnavailable");
     find_manually_created_transcript := find_track false;
     find_generated_transcript := find_track true;
     translate := λ t lang,
       Ok {| track_video := track_video t; language_code := lang; is_generated := true |};
     fetch := content;
     first_audio_stream := λ _, Ok (Some {| itag := 140; mime_type := "audio/mp4" |});
     stream_download := λ _ _ _, Ok ();
     mkdtemp := λ _, Ok "/tmp/tmp0";
     os_denied := denied;
     whisper_transcribe := λ _, stt;
     chat_completions_create := λ _, Ok "Have a nice day!" |}.

(** The state of a freshly started process on an empty machine. *)
Definition initial_state : State :=
  {| fs := ∅; now := 0; transcript_cache := ∅; summary_cache := ∅;
     calls := []; screen := [] |}.

Definition english_manual : Transcript :=
  {| track_video := "abc123"; language_code := "en"; is_generated := false |}.

Definition hindi_generated : Transcript :=
  {| track_video := "abc123"; language_code := "hi"; is_generated := true |}.

Definition segment (body : string) : Snippet :=
  {| snippet_text := body; snippet_start := 0; snippet_duration := 1000 |}.

(** The caption service of the end-to-end example: one manual English track
    with the segments "Hello" and "world". *)
Definition hello_world : Services :=
  machine "abc123" [english_manual]
    (λ _, Ok [segment "Hello"; segment "world"])
    (Ok "spoken words") (λ _, false).

(** A video without captions. *)
Definition no_captions : Services :=
  machine "abc123" [] (λ _, Raise (LibraryError "CouldNotRetrieveTranscript"))
    (Ok "spoken words") (λ _, false).

(** A video whose only track, generated and in Hindi, has two segments. *)
Definition hindi_only : Services :=
  machine "abc123" [hindi_generated]
    (λ _, Ok [segment "namaste"; segment "duniya"])
    (Ok "spoken words") (λ _, false).

(** A video whose manual English track has no segment at all. *)
Definition empty_track : Services :=
  machine "abc123" [english_manual] (λ _, Ok []) (Ok "") (λ _, false).

Definition long_url : string := "https://www.youtube.com/watch?v=abc123".
Definition short_url : string := "https://youtu.be/abc123?t=5".

(** The user has entered the long URL, chosen Hindi and pressed
    "Generate Summary". *)
Definition summary_click : Widgets :=
  {| url_input := long_url; target_language := "hi"; user_question := "";
     summary_btn := true; ask_btn := false; transcript_btn := false |}.

(** The user has entered the short domain without a path. *)
Definition bare_short_domain : Widgets :=
  {| url_input := "https://youtu.be"; target_language := "en"; user_question := "";
     summary_btn := false; ask_btn := false; transcript_btn := false |}.

(** What the resolver returns for the Hindi track when English is asked
    for. *)
Definition hindi_result : TranscriptResult :=
  {| text := "namaste duniya"; original_language := "hi" |}.

(** What the resolver returns in the end-to-end example. *)
Definition hello_world_result : TranscriptResult :=
  {| text := "Hello world"; original_language := "en" |}.

(** What the resolver returns for the video without captions. *)
Definition spoken_words_result : TranscriptResult :=
  {| text := "spoken words"; original_language := "auto-detected" |}.

(** A video without captions whose audio speech-to-text cannot process. *)
Definition no_captions_stt_fails : Services :=
  machine "abc123" [] (λ _, Raise (LibraryError "CouldNotRetrieveTranscript"))
    (Raise (LibraryError "ffmpeg failed")) (λ _, false).


(* ===================================================================== *)
(** * Start-up (lines 31-45, 71-107 and 109-124)                          *)
(* ===================================================================== *)

(** The two objects the process builds before it serves a page. *)
Inductive GroqClient : Type := groq_client (api_key : string).
Inductive WhisperModel : Type := whisper_model (name : string).

(** The environment of the process and the two constructors. *)
Record Host : Type := {
  os_getenv : string → option string;
  Groq : string → result GroqClient;
  whisper_load_model : string → result WhisperModel
}.

Inductive startup_call : Type :=
| CallGroq (api_key : string)
| CallLoadModel (name : string).

(** What start-up has done so far: the constructors called and what was
    shown or logged. *)
Record Boot : Type := {
  boot_calls : list startup_call;
  boot_screen : list element
}.

Definition boot_log (c : startup_call) (b : Boot) : Boot :=
  {| boot_calls := boot_calls b ++ [c]; boot_screen := boot_screen b |}.

Definition boot_show (e : element) (b : Boot) : Boot :=
  {| boot_calls := boot_calls b; boot_screen := boot_screen b ++ [e] |}.

Definition fresh_boot : Boot := {| boot_calls := []; boot_screen := [] |}.

(** A start-up step gives its object, or halts the script with [st.stop()]. *)
Inductive outcome (A : Type) : Type :=
| Ready (a : A)
| Stopped.
Arguments Ready {A} a.
Arguments Stopped {A}.

Definition missing_key : exn :=
  ValueError "GROQ_API_KEY not found in environment variables".

Definition ai_service_banner : element :=
  st_error "Failed to initialize AI service. Please check your API key and try again.".

Definition whisper_banner : element :=
  st_error (PyStr.join nl [
    "Error loading Whisper model. Please install required packages:";
    "        ";
    "1. Open command prompt";
    "2. Run: pip install openai-whisper";
    "3. Restart the app";
    "        " ]).

(** The [except] clause of [get_groq_client]: log, show, stop. *)
Definition groq_failed (e : exn) (b : Boot) : outcome GroqClient * Boot :=
  (Stopped,
   boot_show ai_service_banner
     (boot_show (logger_error ("Error initializing Groq client: " +:+ str_exn e)) b)).

(** [get_groq_client] (lines 32-42).  [if not api_key] holds for a variable
    that is not set and for one that is set to the empty string. *)
Definition get_groq_client (h : Host) (b : Boot) : outcome GroqClient * Boot :=
  match os_getenv h "GROQ_API_KEY" with
  | None => groq_failed missing_key b
  | Some api_key =>
      if bool_decide (api_key = "") then groq_failed missing_key b
      else
        match Groq h api_key with
        | Ok c => (Ready c, boot_log (CallGroq api_key) b)
        | Raise e => groq_failed e (boot_log (CallGroq api_key) b)
        end
  end.

(** [load_whisper_model] (lines 111-121). *)
Definition load_whisper_model (h : Host) (b : Boot) : outcome WhisperModel * Boot :=
  match whisper_load_model h "base" with
  | Ok m => (Ready m, boot_log (CallLoadModel "base") b)
  | Raise _ => (Stopped, boot_show whisper_banner (boot_log (CallLoadModel "base") b))
  end.

(** The style sheet of lines 71-107, written with [st.markdown]. *)
Definition page_style : string :=
  PyStr.join nl [
    "";
    "    <style>";
    "        .stApp {";
    "            background-color: #1a1a1a;";
    "            color: #ffffff;";
    "        }";
    "        .stTabs [data-baseweb=" +:+ dq +:+ "tab-list" +:+ dq +:+ "] {";
    "            gap: 2px;";
    "            background-color: #2d2d2d;";
    "        }";
    "        .stTabs [data-baseweb=" +:+ dq +:+ "tab" +:+ dq +:+ "] {";
    "            height: 50px;";
    "            padding-top: 10px;";
    "            background-color: #2d2d2d;";
    "        }";
    "        .stTabs [aria-selected=" +:+ dq +:+ "true" +:+ dq +:+ "] {";
    "            background-color: #4a4a4a;";
    "        }";
    "        .stButton>button {";
    "            background-color: #3b82f6;";
    "            color: white;";
    "            border: none;";
    "            padding: 0.5rem 1rem;";
    "            border-radius: 0.375rem;";
    "        }";
    "        div[data-testid=" +:+ dq +:+ "stToolbar" +:+ dq +:+ "] {";
    "            display: none;";
    "        }";
    "        .main > div {";
    "            padding-top: 2rem;";
    "        }";
    "        .block-container {";
    "            padding-top: 2rem;";
    "            max-width: 100rem;";
    "        }";
    "    </style>";
    "" ].

(** Lines 45, 71-107 and 124 in the order the module runs them: the
    client, the style sheet, the model.  What runs before line 45 (logging
    set-up, [load_dotenv], [st.set_page_config]) shows no element. *)
Definition startup (h : Host) (b : Boot) : outcome (GroqClient * WhisperModel) * Boot :=
  match get_groq_client h b with
  | (Stopped, b1) => (Stopped, b1)
  | (Ready c, b1) =>
      match load_whisper_model h (boot_show (st_markdown page_style) b1) with
      | (Stopped, b2) => (Stopped, b2)
      | (Ready m, b2) => (Ready (c, m), b2)
      end
  end.

(** A host for the examples: the key is [key], both constructors work. *)
Definition host_with_key (key : option string) : Host :=
  {| os_getenv := λ name, if bool_decide (name = "GROQ_API_KEY") then key else None;
     Groq := λ k, Ok (groq_client k);
     whisper_load_model := λ n, Ok (whisper_model n) |}.

(* ===================================================================== *)
(** * Properties of computations                                          *)
(* ===================================================================== *)

(** A computation leaves the component [f] of the state as it found it. *)
Definition preserves {A X : Type} (f : State → X) (m : M A) : Prop :=
  ∀ s, f (m s).2 = f s.

(** ** What the audio path gives *)

(** How [download_audio] reports a failure. *)
Definition download_error (e : exn) : exn :=
  Exception ("Error downloading audio: " +:+ str_exn e).

(** The outcome of [download_audio] on a machine whose file system is
    [files]: the path of the audio file, or the reported failure of the
    first step that fails. *)
Definition download_result (env : Services) (url : string) (files : gmap string node)
    : result string :=
  match first_audio_stream env url with
  | Raise e => Raise (download_error e)
  | Ok found =>
      match mkdtemp env files with
      | Raise e => Raise (download_error e)
      | Ok d =>
          match found with
          | None =>
              Raise (download_error
                       (AttributeError "'NoneType' object has no attribute 'download'"))
          | Some strm =>
              match stream_download env strm d "audio.mp4" with
              | Raise e => Raise (download_error e)
              | Ok _ => Ok (os_path_join d "audio.mp4")
              end
          end
      end
  end.

(** The outcome of the third source: the text speech-to-text gives for the
    downloaded file, under the sentinel language, or the reported failure of
    the download or of the transcription. *)
Definition audio_result (env : Services) (url : string) (files : gmap string node)
    : result TranscriptResult :=
  match download_result env url files with
  | Raise e => Raise e
  | Ok path =>
      match whisper_transcribe env path with
      | Ok txt => Ok {| text := txt; original_language := "auto-detected" |}
      | Raise e => Raise (Exception ("Error transcribing audio: " +:+ str_exn e))
      end
  end.

(** ** What the memo table answers *)

(** The value a memo table holds for [key] at [time], when the entry is
    there and younger than [ttl]: what [cache_data] returns without running
    its body. *)
Definition fresh_entry {K V : Type} `{Countable K}
    (cache : gmap K (V * nat)) (key : K) (time : nat) : option V :=
  match cache !! key with
  | Some (v, stored_at) => if bool_decide (time < stored_at + ttl) then Some v else None
  | None => None
  end.

(** The state after [get_cached_transcript] stored [r] under [key]. *)
Definition remember (key : string * string) (r : TranscriptResult) (s : State) : State :=
  set_transcript_cache (<[key := (r, now s)]> (transcript_cache s)) s.

(** The request [generate_cached_summary] sends for a transcript. *)
Definition summary_request (transcript_text : string) : CompletionRequest :=
  {| messages :=
       [("system", "You are a helpful assistant that creates detailed summaries of YouTube videos.");
        ("user", prompt +:+ nl +:+ nl +:+ transcript_text)];
     model := "llama-3.3-70b-versatile";
     temperature := Some (QArith_base.Qmake 7 10);
     max_tokens := Some 2000 |}.

(** What the page shows before it looks at the buttons. *)
Definition page_head (vid : string) : list element :=
  [st_title "YouTube Video Summarizer";
   st_markdown (video_embed vid);
   st_markdown "### Transcript"].

(** The user has entered the long URL, chosen Hindi and pressed
    "Generate Summary", with a question typed but "Ask AI" not pressed. *)
Definition summary_only : Widgets :=
  {| url_input := long_url; target_language := "hi"; user_question := "What is it about?";
     summary_btn := true; ask_btn := false; transcript_btn := false |}.

(** A host whose key is set and whose model cannot be loaded. *)
Definition host_without_model : Host :=
  {| os_getenv := λ name, if bool_decide (name = "GROQ_API_KEY") then Some "gsk_test" else None;
     Groq := λ k, Ok (groq_client k);
     whisper_load_model := λ _, Raise (LibraryError "No module named 'whisper'") |}.

(** The state after a list of elements was shown. *)
Definition show_all (l : list element) (s : State) : State :=
  {| fs := fs s; now := now s; transcript_cache := transcript_cache s;
     summary_cache := summary_cache s; calls := calls s; screen := screen s ++ l |}.

(** What a run shows for a URL the page accepts when every attempt to get
    the transcript raises [e] at once: the player, and for each button
    pressed the banner of [get_transcript] followed by that of the button. *)
Definition failed_page (w : Widgets) (vid : string) (e : exn) : list element :=
  [st_title "YouTube Video Summarizer";
   st_markdown (video_embed vid);
   st_markdown "### Transcript"] ++
  (if summary_btn w
   then [error_banner;
         logger_error ("Error in summary generation: " +:+ str_exn e);
         st_error "An error occurred while generating the summary. Please try again."]
   else []) ++
  [st_markdown "### Ask AI about the video"] ++
  (if negb (bool_decide (user_question w = "")) && ask_btn w
   then [error_banner; st_error ("An error occurred: " +:+ str_exn e)]
   else []) ++
  (if transcript_btn w
   then [error_banner;
         st_error ("An error occurred while fetching transcript: " +:+ str_exn e)]
   else []).

(** The calls of [download_audio]. *)
Definition is_download_call (c : call) : Prop :=
  match c with
  | CallYouTube _ | CallMkdtemp | CallStreamDownload _ _ _ => True
  | _ => False
  end.

(** The user has entered the short URL and pressed every button. *)
Definition all_buttons : Widgets :=
  {| url_input := short_url; target_language := "hi"; user_question := "What is it about?";
     summary_btn := true; ask_btn := true; transcript_btn := true |}.

(** The user has entered the long URL and pressed nothing. *)
Definition no_button : Widgets :=
  {| url_input := long_url; target_language := "en"; user_question := "";
     summary_btn := false; ask_btn := true; transcript_btn := false |}.

(** The user has entered a URL of another site and pressed every button. *)
Definition other_site : Widgets :=
  {| url_input := "https://example.com/video"; target_language := "en";
     user_question := "What is it about?";
     summary_btn := true; ask_btn := true; transcript_btn := true |}.

(** The end-to-end example with a completion service that is down. *)
Definition completion_down : Services :=
  {| list_transcripts := list_transcripts hello_world;
     find_manually_created_transcript := find_manually_created_transcript hello_world;
     find_generated_transcript := find_generated_transcript hello_world;
     translate := translate hello_world;
     fetch := fetch hello_world;
     first_audio_stream := first_audio_stream hello_world;
     stream_download := stream_download hello_world;
     mkdtemp := mkdtemp hello_world;
     os_denied := os_denied hello_world;
     whisper_transcribe := whisper_transcribe hello_world;
     chat_completions_create := λ _, Raise (LibraryError "Connection error.") |}.

(** A video whose listing fails. *)
Definition listing_fails : Services :=
  machine "another" [] (λ _, Ok []) (Ok "spoken words") (λ _, false).

(** A video without captions for which no audio stream is found. *)
Definition no_audio_stream : Services :=
  {| list_transcripts := list_transcripts no_captions;
     find_manually_created_transcript := find_manually_created_transcript no_captions;
     find_generated_transcript := find_generated_transcript no_captions;
     translate := translate no_captions;
     fetch := fetch no_captions;
     first_audio_stream := λ _, Ok None;
     stream_download := stream_download no_captions;
     mkdtemp := mkdtemp no_captions;
     os_denied := os_denied no_captions;
     whisper_transcribe := whisper_transcribe no_captions;
     chat_completions_create := chat_completions_create no_captions |}.

(** A video without captions on a machine that refuses every removal. *)
Definition removal_denied : Services :=
  machine "abc123" [] (λ _, Ok []) (Ok "spoken words") (λ _, true).

(* ===================================================================== *)
(** * Facts about Python strings                                          *)
(* ===================================================================== *)

Module PyStrFacts.
Import PyStr.

Lemma append_cons (a : ascii) (s t : string) : String a s +:+ t = String a (s +:+ t).
Proof. reflexivity. Qed.

Lemma append_nil_l (t : string) : "" +:+ t = t.
Proof. reflexivity. Qed.

Ltac push_append := rewrite ?append_cons, ?append_nil_l in *.

Lemma append_nil_r (s : string) : s +:+ "" = s.
Proof. induction s as [|a s IH]; push_append; [reflexivity | now rewrite IH]. Qed.

Lemma append_assoc (a b c : string) : (a +:+ b) +:+ c = a +:+ b +:+ c.
Proof. induction a as [|x a IH]; push_append; [reflexivity | now rewrite IH]. Qed.

Lemma length_append (a b : string) :
  String.length (a +:+ b) = String.length a + String.length b.
Proof. induction a as [|x a IH]; push_append; simpl; [reflexivity | now rewrite IH]. Qed.

Lemma append_snoc (a : string) (c : ascii) (b : string) :
  (a +:+ String c "") +:+ b = a +:+ String c b.
Proof. now rewrite append_assoc. Qed.

(** ** [startswith] *)

Lemma startswith_append (sep x : string) : startswith sep (sep +:+ x) = true.
Proof.
  induction sep as [|a sep IH]; simpl; [reflexivity|].
  now rewrite Ascii.eqb_refl.
Qed.

Lemma startswith_inv (sep s : string) :
  startswith sep s = true → ∃ y, s = sep +:+ y.
Proof.
  revert s; induction sep as [|a sep IH]; intros s H; simpl in *.
  - now exists s.
  - destruct s as [|b s]; [discriminate|].
    destruct (Ascii.eqb_spec a b) as [->|]; [|discriminate].
    destruct (IH _ H) as [y ->]. now exists y.
Qed.

Lemma startswith_refl (s : string) : startswith s s = true.
Proof.
  pose proof (startswith_append s "") as H. now rewrite append_nil_r in H.
Qed.

(** A prefix of [x +:+ y] either lies within [x] or runs over into [y]. *)
Lemma startswith_append_inv (sep x y : string) :
  startswith sep (x +:+ y) = true →
  startswith sep x = true ∨ ∃ t, sep = x +:+ t ∧ startswith t y = true.
Proof.
  revert x; induction sep as [|a sep IH]; intros x H.
  - now left.
  - destruct x as [|b x]; simpl in *.
    + right. now exists (String a sep).
    + destruct (Ascii.eqb_spec a b) as [->|]; [|discriminate].
      destruct (IH _ H) as [Hl | (t & -> & Ht)]; [now left|].
      right. now exists t.
Qed.

Lemma startswith_short (sep x y : string) :
  startswith sep x = false → (String.length sep ≤ String.length x)%nat →
  startswith sep (x +:+ y) = false.
Proof.
  revert x; induction sep as [|a sep IH]; intros x H Hlen; simpl in *; [discriminate|].
  destruct x as [|b x]; simpl in *; [lia|].
  destruct (Ascii.eqb a b); [|reflexivity].
  apply IH; [assumption | lia].
Qed.

Lemma startswith_extend (sep x y : string) :
  startswith sep x = true → startswith sep (x +:+ y) = true.
Proof.
  intros H. destruct (startswith_inv _ _ H) as [z ->].
  rewrite append_assoc. apply startswith_append.
Qed.

(** ** characters *)

Lemma has_char_append (c : ascii) (a b : string) :
  has_char c (a +:+ b) = has_char c a || has_char c b.
Proof.
  induction a as [|x a IH]; push_append; simpl; [reflexivity|].
  rewrite IH. now rewrite orb_assoc.
Qed.

Lemma has_char_startswith (c : ascii) (t w : string) :
  startswith t w = true → has_char c t = true → has_char c w = true.
Proof.
  intros H Hc. destruct (startswith_inv _ _ H) as [y ->].
  rewrite has_char_append, Hc. reflexivity.
Qed.

Lemma last_char_has_char (s : string) (c : ascii) :
  last_char s = Some c → has_char c s = true.
Proof.
  induction s as [|a s IH]; simpl; [discriminate|].
  destruct s as [|b s].
  - intros [= ->]. now rewrite Ascii.eqb_refl.
  - intros H. rewrite (IH H). apply orb_true_r.
Qed.

Lemma last_char_append (a b : string) :
  b ≠ "" → last_char (a +:+ b) = last_char b.
Proof.
  intros Hb. induction a as [|x a IH]; push_append; [reflexivity|].
  rewrite <- IH. simpl. destruct (a +:+ b) eqn:E; [|reflexivity].
  destruct a; push_append; [congruence | discriminate].
Qed.

(** ** [in] *)

Lemma contains_startswith (sep s : string) :
  startswith sep s = true → contains sep s = true.
Proof. intros H. destruct s; simpl in *; rewrite H; reflexivity. Qed.

Lemma contains_cons (sep : string) (a : ascii) (s : string) :
  contains sep (String a s) = startswith sep (String a s) || contains sep s.
Proof. reflexivity. Qed.

Lemma contains_append_r (sep x y : string) :
  contains sep y = true → contains sep (x +:+ y) = true.
Proof.
  intros H. induction x as [|a x IH]; [assumption|].
  change (String a x +:+ y) with (String a (x +:+ y)).
  rewrite contains_cons, IH. apply orb_true_r.
Qed.

Lemma contains_append_l (sep x y : string) :
  contains sep x = true → contains sep (x +:+ y) = true.
Proof.
  induction x as [|a x IH]; intros H.
  - simpl in H. rewrite orb_false_r in H.
    apply contains_startswith. now apply (startswith_extend sep "" y).
  - change (String a x +:+ y) with (String a (x +:+ y)).
    rewrite contains_cons in *. apply orb_true_iff in H as [H|H].
    + pose proof (startswith_extend sep (String a x) y H) as Hs.
      rewrite append_cons in Hs. rewrite Hs. reflexivity.
    + rewrite (IH H). apply orb_true_r.
Qed.

Lemma contains_empty_false (sep : string) : contains sep "" = false → sep ≠ "".
Proof. intros H ->. discriminate. Qed.

Lemma contains_false_nonempty (sep s : string) : contains sep s = false → sep ≠ "".
Proof. intros H ->. destruct s; discriminate. Qed.

(** A character of the separator occurs in every string that contains the
    separator. *)
Lemma contains_has_char (sep s : string) (c : ascii) :
  contains sep s = true → has_char c sep = true → has_char c s = true.
Proof.
  intros H Hc. induction s as [|a s IH].
  - simpl in H. rewrite orb_false_r in H.
    now apply (has_char_startswith c sep "").
  - rewrite contains_cons in H. apply orb_true_iff in H as [H|H].
    + now apply (has_char_startswith c sep).
    + simpl. rewrite (IH H). apply orb_true_r.
Qed.

(** Appending a string without the last character of the separator creates
    no occurrence of the separator. *)
Lemma contains_append_no_last (w : string) (c : ascii) (p x : string) :
  contains (w +:+ String c "") p = false →
  has_char c x = false →
  contains (w +:+ String c "") (p +:+ x) = false.
Proof.
  set (sep := w +:+ String c "").
  assert (Hlast : last_char sep = Some c)
    by (unfold sep; now rewrite last_char_append).
  intros Hp Hx.
  assert (Hbase : contains sep x = false).
  { destruct (contains sep x) eqn:E; [|reflexivity].
    rewrite (contains_has_char _ _ c E (last_char_has_char _ _ Hlast)) in Hx.
    discriminate. }
  induction p as [|a p IH]; [assumption|].
  change (String a p +:+ x) with (String a (p +:+ x)).
  rewrite contains_cons in *. apply orb_false_iff in Hp as [Hs Hp].
  rewrite (IH Hp), orb_false_r.
  destruct (startswith sep (String a (p +:+ x))) eqn:E; [|reflexivity].
  destruct (startswith_append_inv sep (String a p) x E) as [H|(t & Hsep & Ht)];
    [congruence|].
  destruct t as [|b t].
  - rewrite append_nil_r in Hsep. rewrite Hsep, startswith_refl in Hs.
    discriminate.
  - assert (Hc : last_char (String b t) = Some c).
    { rewrite <- Hlast, Hsep. symmetry. now apply last_char_append. }
    rewrite (has_char_startswith c _ _ Ht (last_char_has_char _ _ Hc)) in Hx.
    discriminate.
Qed.

(** ** [split] *)

(** Passing over the rest of a matched separator. *)
Lemma split_from_skip (sep x rest piece : string) :
  split_from sep (x +:+ rest) (String.length x) piece = split_from sep rest 0 piece.
Proof.
  induction x as [|a x IH]; push_append; simpl.
  - destruct rest; reflexivity.
  - apply IH.
Qed.

(** Without an occurrence of the separator there is one piece. *)
Lemma split_from_absent (sep s piece : string) :
  contains sep s = false → split_from sep s 0 piece = [piece +:+ s].
Proof.
  revert piece; induction s as [|a s IH]; intros piece H.
  - simpl. now rewrite append_nil_r.
  - rewrite contains_cons in H. apply orb_false_iff in H as [Hs Hc].
    cbn [split_from]. rewrite Hs, (IH _ Hc), append_snoc. reflexivity.
Qed.

(** A separator at the very start closes the current piece. *)
Lemma split_from_here (b : ascii) (t rest piece : string) :
  split_from (String b t) (String b t +:+ rest) 0 piece
  = piece :: split_from (String b t) rest 0 "".
Proof.
  pose proof (startswith_append (String b t) rest) as Hst.
  rewrite append_cons in *. cbn [split_from]. rewrite Hst.
  replace (String.length (String b t) - 1) with (String.length t) by (simpl; lia).
  now rewrite split_from_skip.
Qed.

(** The first piece ends where the separator first occurs. *)
Lemma split_from_first (w : string) (c : ascii) (p rest piece : string) :
  contains (w +:+ String c "") (p +:+ w) = false →
  split_from (w +:+ String c "") (p +:+ (w +:+ String c "") +:+ rest) 0 piece
  = (piece +:+ p) :: split_from (w +:+ String c "") rest 0 "".
Proof.
  set (sep := w +:+ String c "").
  revert piece; induction p as [|a p IH]; intros piece H.
  - push_append. rewrite append_nil_r.
    assert (Hsep : ∃ b t, sep = String b t)
      by (unfold sep; destruct w; push_append; eauto).
    destruct Hsep as (b & t & ->). apply split_from_here.
  - push_append. rewrite contains_cons in H. apply orb_false_iff in H as [Hs Hc].
    assert (Hno : startswith sep (String a (p +:+ sep +:+ rest)) = false).
    { pose proof (startswith_short sep (String a (p +:+ w)) (String c rest) Hs) as Hq.
      rewrite append_cons, append_assoc in Hq.
      unfold sep at 2. rewrite append_snoc. apply Hq.
      unfold sep. rewrite length_append. simpl. rewrite length_append. lia. }
    cbn [split_from]. rewrite Hno, (IH _ Hc), append_snoc. reflexivity.
Qed.

(** The first piece always extends the piece collected so far. *)
Lemma split_from_head (sep s : string) (skip : nat) (piece : string) :
  ∃ y l, split_from sep s skip piece = (piece +:+ y) :: l.
Proof.
  revert skip piece; induction s as [|a s IH]; intros skip piece.
  - exists "", []. simpl. now rewrite append_nil_r.
  - destruct skip as [|k]; cbn [split_from].
    + destruct (startswith sep (String a s)).
      * exists "". eexists. now rewrite append_nil_r.
      * destruct (IH 0 (piece +:+ String a "")) as (y & l & ->).
        exists (String a y), l. now rewrite append_snoc.
    + apply IH.
Qed.

(** Before a character that is not in the separator, a string that does
    not contain the separator stays in the first piece. *)
Lemma split_from_keeps (sep ident : string) (d : ascii) (rest piece : string) :
  contains sep ident = false → has_char d sep = false →
  ∃ y l, split_from sep (ident +:+ String d rest) 0 piece
         = (piece +:+ ident +:+ String d y) :: l.
Proof.
  intros Hid Hd. revert piece; induction ident as [|a ident IH]; intros piece.
  - push_append.
    assert (Hno : startswith sep (String d rest) = false).
    { destruct sep as [|b sep]; [discriminate|]. simpl in *.
      apply orb_false_iff in Hd as [Hd _].
      rewrite Ascii.eqb_sym in Hd. now rewrite Hd. }
    cbn [split_from]. rewrite Hno.
    destruct (split_from_head sep rest 0 (piece +:+ String d "")) as (y & l & ->).
    exists y, l. now rewrite append_snoc.
  - push_append. rewrite contains_cons in Hid. apply orb_false_iff in Hid as [Hs Hc].
    assert (Hno : startswith sep (String a (ident +:+ String d rest)) = false).
    { destruct (startswith sep (String a (ident +:+ String d rest))) eqn:E; [|reflexivity].
      destruct (startswith_append_inv sep (String a ident) (String d rest) E)
        as [H|(t & Hsep & Ht)]; [congruence|].
      destruct t as [|b t].
      - rewrite append_nil_r in Hsep. rewrite Hsep, startswith_refl in Hs. discriminate.
      - simpl in Ht. destruct (Ascii.eqb_spec b d) as [->|]; [|discriminate].
        rewrite Hsep, has_char_append in Hd. simpl in Hd.
        rewrite Ascii.eqb_refl in Hd. simpl in Hd. rewrite orb_true_r in Hd. discriminate. }
    cbn [split_from]. rewrite Hno.
    destruct (IH Hc (piece +:+ String a "")) as (y & l & ->).
    exists y, l. now rewrite append_snoc.
Qed.

(** ** [s.split(sep)[i]] *)

Lemma getitem_split_absent (sep s : string) :
  contains sep s = false → getitem (split sep s) 1 = Raise IndexError.
Proof. intros H. unfold split. now rewrite (split_from_absent _ _ _ H). Qed.

Lemma getitem_split_present (sep s : string) :
  contains sep s = true → sep ≠ "" → ∃ x, getitem (split sep s) 1 = Ok x.
Proof.
  intros H Hsep. unfold split. generalize "" as piece.
  induction s as [|a s IH]; intros piece.
  - simpl in H. destruct sep; [congruence | discriminate].
  - cbn [split_from]. destruct (startswith sep (String a s)) eqn:E.
    + destruct (split_from_head sep s (String.length sep - 1) "") as (y & l & ->).
      now exists ("" +:+ y).
    + rewrite contains_cons, E in H. apply IH, H.
Qed.

(** The piece before the first occurrence of a one-character separator. *)
Lemma getitem_split_char_0 (c : ascii) (ident rest : string) :
  has_char c ident = false →
  getitem (split (String c "") (ident +:+ String c rest)) 0 = Ok ident.
Proof.
  intros H. unfold split.
  pose proof (split_from_first "" c ident rest "") as Hf.
  rewrite !append_nil_l, append_nil_r, append_cons, append_nil_l in Hf.
  rewrite Hf; [reflexivity|].
  destruct (contains (String c "") ident) eqn:E; [|reflexivity].
  rewrite (contains_has_char _ _ c E) in H; [discriminate|].
  simpl. now rewrite Ascii.eqb_refl.
Qed.

End PyStrFacts.

(* ===================================================================== *)
(** * The Video-ID extractor                                              *)
(* ===================================================================== *)

Module Extractor.
Import PyStr PyStrFacts.

Lemma contains_char (c : ascii) (s : string) :
  contains (String c "") s = has_char c s.
Proof.
  induction s as [|a s IH]; [reflexivity|].
  rewrite contains_cons, IH. simpl. now destruct (Ascii.eqb c a).
Qed.

(** The short form: the identifier is what follows the first [youtu.be/],
    up to the first question mark. *)
Lemma extract_short_form (p ident r : string) :
  contains "youtu.be/" p = false →
  contains "youtu.be/" ident = false →
  contains "?" ident = false →
  extract_video_id (p +:+ "youtu.be/" +:+ ident +:+ "?" +:+ r) = Ok ident.
Proof.
  intros Hp Hid Hq. unfold extract_video_id.
  assert (Hin : contains "youtu.be" (p +:+ "youtu.be/" +:+ ident +:+ "?" +:+ r) = true)
    by (apply contains_append_r, contains_startswith; reflexivity).
  rewrite Hin. unfold split.
  pose proof (split_from_first "youtu.be" "/" p (ident +:+ "?" +:+ r) ""
                (contains_append_no_last "youtu.be" "/" p "youtu.be" Hp eq_refl)) as Hf.
  change ("youtu.be" +:+ String "/"%char "") with "youtu.be/" in Hf.
  rewrite Hf.
  destruct (split_from_keeps "youtu.be/" ident "?" r "" Hid eq_refl) as (y & l & Hk).
  change ("?" +:+ r) with (String "?"%char r). rewrite Hk.
  cbn. rewrite contains_char in Hq. apply (getitem_split_char_0 "?" ident y Hq).
Qed.

(** The long form: the identifier is what follows the first [v=], up to
    the first ampersand. *)
Lemma extract_long_form (p ident r : string) :
  contains "youtu.be" (p +:+ "youtube.com/watch?v=" +:+ ident +:+ "&" +:+ r) = false →
  contains "v=" p = false →
  contains "v=" ident = false →
  contains "&" ident = false →
  extract_video_id (p +:+ "youtube.com/watch?v=" +:+ ident +:+ "&" +:+ r) = Ok ident.
Proof.
  intros Hshort Hp Hid Hq. unfold extract_video_id. rewrite Hshort.
  assert (Hin : contains "youtube.com"
                  (p +:+ "youtube.com/watch?v=" +:+ ident +:+ "&" +:+ r) = true)
    by (apply contains_append_r, contains_startswith; reflexivity).
  rewrite Hin. unfold split.
  assert (Hc : contains "v=" ((p +:+ "youtube.com/watch?") +:+ "v") = false).
  { rewrite append_assoc.
    apply (contains_append_no_last "v" "=" p "youtube.com/watch?v" Hp eq_refl). }
  pose proof (split_from_first "v" "=" (p +:+ "youtube.com/watch?")
                (ident +:+ "&" +:+ r) "" Hc) as Hf.
  change ("v" +:+ String "="%char "") with "v=" in Hf.
  rewrite append_assoc in Hf.
  change ("youtube.com/watch?" +:+ "v=" +:+ ident +:+ "&" +:+ r)
    with ("youtube.com/watch?v=" +:+ ident +:+ "&" +:+ r) in Hf.
  rewrite Hf.
  destruct (split_from_keeps "v=" ident "&" r "" Hid eq_refl) as (y & l & Hk).
  change ("&" +:+ r) with (String "&"%char r). rewrite Hk.
  cbn. rewrite contains_char in Hq. apply (getitem_split_char_0 "&" ident y Hq).
Qed.

Lemma extract_no_marker (url : string) :
  contains "youtu.be" url = false →
  contains "youtube.com" url = false →
  extract_video_id url = Raise (ValueError "Invalid YouTube URL format").
Proof. intros H1 H2. unfold extract_video_id. now rewrite H1, H2. Qed.

(** A marker without its separator: the unguarded index raises. *)
Lemma extract_missing_separator (url : string) :
  (contains "youtu.be" url = true ∧ contains "youtu.be/" url = false) ∨
  (contains "youtu.be" url = false ∧ contains "youtube.com" url = true ∧
   contains "v=" url = false) →
  extract_video_id url = Raise IndexError.
Proof.
  unfold extract_video_id. intros [[H1 H2] | (H1 & H2 & H3)].
  - rewrite H1, (getitem_split_absent _ _ H2). reflexivity.
  - rewrite H1, H2, (getitem_split_absent _ _ H3). reflexivity.
Qed.

End Extractor.

(* ===================================================================== *)
(** * Facts about the monad of the program                                *)
(* ===================================================================== *)

Section MonadFacts.
Context {A B : Type}.

Lemma bind_ok (m : M A) (f : A → M B) (s s1 : State) (a : A) :
  m s = (Ok a, s1) → (m ≫= f) s = f a s1.
Proof. intros H. unfold mbind, M_bind. now rewrite H. Qed.

Lemma bind_raise (m : M A) (f : A → M B) (s s1 : State) (e : exn) :
  m s = (Raise e, s1) → (m ≫= f) s = (Raise e, s1).
Proof. intros H. unfold mbind, M_bind. now rewrite H. Qed.

Lemma try_ok (m : M A) (h : exn → M A) (s s1 : State) (a : A) :
  m s = (Ok a, s1) → try_except m h s = (Ok a, s1).
Proof. intros H. unfold try_except. now rewrite H. Qed.

Lemma try_raise (m : M A) (h : exn → M A) (s s1 : State) (e : exn) :
  m s = (Raise e, s1) → try_except m h s = h e s1.
Proof. intros H. unfold try_except. now rewrite H. Qed.

Lemma bind_ok_inv (m : M A) (f : A → M B) (s s2 : State) (b : B) :
  (m ≫= f) s = (Ok b, s2) → ∃ a s1, m s = (Ok a, s1) ∧ f a s1 = (Ok b, s2).
Proof.
  unfold mbind, M_bind. destruct (m s) as [[a|e] s1]; intros H; [eauto | discriminate].
Qed.

End MonadFacts.

(** ** Computations that only append to the call log *)

Section Appends.
Context {A B : Type} (P : call → Prop).

Lemma appends_nothing (m : M A) :
  (∀ s, calls (m s).2 = calls s) → appends P m.
Proof. intros H s. exists []. now rewrite H, app_nil_r. Qed.

Lemma appends_one (m : M A) (c : call) :
  P c → (∀ s, calls (m s).2 = calls s ++ [c]) → appends P m.
Proof. intros Hc H s. exists [c]. split; [apply H | now constructor]. Qed.

Lemma appends_bind (m : M A) (f : A → M B) :
  appends P m → (∀ a, appends P (f a)) → appends P (m ≫= f).
Proof.
  intros Hm Hf s. destruct (Hm s) as (t1 & E1 & F1).
  unfold mbind, M_bind. destruct (m s) as [[a|e] s1]; simpl in *.
  - destruct (Hf a s1) as (t2 & E2 & F2). exists (t1 ++ t2).
    rewrite E2, E1, app_assoc. split; [reflexivity | now apply Forall_app].
  - now exists t1.
Qed.

Lemma appends_try (m : M A) (h : exn → M A) :
  appends P m → (∀ e, appends P (h e)) → appends P (try_except m h).
Proof.
  intros Hm Hh s. destruct (Hm s) as (t1 & E1 & F1).
  unfold try_except. destruct (m s) as [[a|e] s1]; simpl in *.
  - now exists t1.
  - destruct (Hh e s1) as (t2 & E2 & F2). exists (t1 ++ t2).
    rewrite E2, E1, app_assoc. split; [reflexivity | now apply Forall_app].
Qed.

End Appends.

Section AppendsBasic.
Context {A : Type} (P : call → Prop).

Lemma appends_mret (a : A) : appends P (mret a : M A).
Proof. now apply appends_nothing. Qed.

Lemma appends_raise (e : exn) : appends P (raise e : M A).
Proof. now apply appends_nothing. Qed.

Lemma appends_lift (r : result A) : appends P (lift r).
Proof. now apply appends_nothing. Qed.

Lemma appends_st (e : element) : appends P (st e).
Proof. now apply appends_nothing. Qed.

Lemma appends_external (c : call) (r : result A) : P c → appends P (external c r).
Proof. intros Hc. now apply (appends_one P _ c). Qed.

Lemma appends_cache_data {K : Type} `{Countable K}
    (get : State → gmap K (A * nat)) (set : gmap K (A * nat) → State → State)
    (key : K) (body : M A) :
  (∀ c s, calls (set c s) = calls s) →
  appends P body → appends P (cache_data get set key body).
Proof.
  intros Hset Hb s. unfold cache_data.
  assert (Hrun : ∃ tail,
    calls (match body s with
           | (Ok v, s') => (Ok v, set (<[key := (v, now s')]> (get s')) s')
           | (Raise e, s') => (Raise e, s')
           end).2 = calls s ++ tail ∧ Forall P tail).
  { destruct (Hb s) as (t & E & F). exists t.
    destruct (body s) as [[v|e] s1]; simpl in *; [now rewrite Hset | easy]. }
  destruct (get s !! key) as [[v stored_at]|]; [|exact Hrun].
  case_bool_decide; [|exact Hrun].
  exists []. now rewrite app_nil_r.
Qed.

End AppendsBasic.



Section ResolverFacts.
Variable env : Services.

Lemma find_transcript_manual url tl t s :
  find_manually_created_transcript env tl supported_languages = Ok t →
  find_transcript env url tl s
  = (Ok (inl (t, language_code t)), log_call (CallFindManual tl supported_languages) s).
Proof.
  intros H. unfold find_transcript, call_find_manually_created_transcript.
  apply try_ok. erewrite bind_ok; [reflexivity|]. unfold external. now rewrite H.
Qed.

Lemma find_transcript_generated url tl e t s :
  find_manually_created_transcript env tl supported_languages = Raise e →
  find_generated_transcript env tl supported_languages = Ok t →
  find_transcript env url tl s
  = (Ok (inl (t, language_code t)),
     log_call (CallFindGenerated tl supported_languages)
       (log_call (CallFindManual tl supported_languages) s)).
Proof.
  intros H1 H2. unfold find_transcript, call_find_manually_created_transcript,
    call_find_generated_transcript.
  erewrite try_raise; [|apply bind_raise; unfold external; now rewrite H1].
  apply try_ok. erewrite bind_ok; [reflexivity|]. unfold external. now rewrite H2.
Qed.

Lemma find_transcript_fallback url tl e1 e2 s :
  find_manually_created_transcript env tl supported_languages = Raise e1 →
  find_generated_transcript env tl supported_languages = Raise e2 →
  find_transcript env url tl s
  = (r ← speech_to_text_fallback env url; mret (inr r))
      (log_call (CallFindGenerated tl supported_languages)
         (log_call (CallFindManual tl supported_languages) s)).
Proof.
  intros H1 H2. unfold find_transcript, call_find_manually_created_transcript,
    call_find_generated_transcript.
  erewrite try_raise; [|apply bind_raise; unfold external; now rewrite H1].
  erewrite try_raise; [reflexivity|]. apply bind_raise. unfold external. now rewrite H2.
Qed.

(** Whatever the nested [try] leaves the block with is a track found by one
    of the two look-ups, with its own language code. *)
Lemma find_transcript_inl url tl t lang s s1 :
  find_transcript env url tl s = (Ok (inl (t, lang)), s1) →
  lang = language_code t ∧
  (find_manually_created_transcript env tl supported_languages = Ok t ∨
   find_generated_transcript env tl supported_languages = Ok t).
Proof.
  destruct (find_manually_created_transcript env tl supported_languages) as [t1|e1] eqn:E1.
  { rewrite (find_transcript_manual _ _ _ _ E1). intros [= -> -> _]. auto. }
  destruct (find_generated_transcript env tl supported_languages) as [t2|e2] eqn:E2.
  { rewrite (find_transcript_generated _ _ _ _ _ E1 E2). intros [= -> -> _]. auto. }
  rewrite (find_transcript_fallback _ _ _ _ _ E1 E2).
  unfold mbind, M_bind. destruct (speech_to_text_fallback env url _) as [[r|e] s2]; discriminate.
Qed.

Lemma find_transcript_inr url tl r s s1 :
  find_transcript env url tl s = (Ok (inr r), s1) →
  ∃ s0, speech_to_text_fallback env url s0 = (Ok r, s1).
Proof.
  destruct (find_manually_created_transcript env tl supported_languages) as [t1|e1] eqn:E1.
  { rewrite (find_transcript_manual _ _ _ _ E1). discriminate. }
  destruct (find_generated_transcript env tl supported_languages) as [t2|e2] eqn:E2.
  { rewrite (find_transcript_generated _ _ _ _ _ E1 E2). discriminate. }
  rewrite (find_transcript_fallback _ _ _ _ _ E1 E2).
  intros H. apply bind_ok_inv in H as (r' & s2 & H & [= -> ->]). eauto.
Qed.

(** ** Lines 205-211 *)

Lemma fetch_text_run t target s :
  (fetch_text env t (language_code t) target s).1 = caption_result env t target ∧
  calls (fetch_text env t (language_code t) target s).2
  = calls s ++ caption_calls env t target.
Proof.
  unfold fetch_text, caption_result, caption_calls, translated, call_translate,
    call_fetch, external, mbind, M_bind, result_bind, mret, M_ret.
  destruct (decide (target ≠ language_code t)).
  - destruct (translate env t target) as [t'|e]; [|easy].
    destruct (fetch env t'); simpl; now rewrite <- app_assoc.
  - destruct (fetch env t); easy.
Qed.


Lemma caption_result_ok_inv t target r :
  caption_result env t target = Ok r →
  original_language r = language_code t ∧
  ∃ t' segs, translated env t target = Ok t' ∧ fetch env t' = Ok segs ∧
             text r = PyStr.join " " (snippet_text <$> segs).
Proof.
  unfold caption_result, mbind, result_bind.
  destruct (translated env t target) as [t'|]; [|discriminate].
  destruct (fetch env t') as [segs|] eqn:Ef; [|discriminate].
  intros [= <-]. simpl. split; [reflexivity|]. now exists t', segs.
Qed.

(** ** [get_transcript] *)

Lemma get_transcript_unfold url target s vid tl :
  getitem (PyStr.split "v=" url) 1 = Ok vid →
  list_transcripts env vid = Ok tl →
  get_transcript env url target s =
  match find_transcript env url tl (log_call (CallListTranscripts vid) s) with
  | (Ok (inr r), s1) => (Ok r, s1)
  | (Ok (inl (t, lang)), s1) => report (fetch_text env t lang target s1)
  | (Raise e, s1) => (Raise e, show error_banner s1)
  end.
Proof.
  intros H1 H2. unfold get_transcript, try_except, lift, call_list_transcripts, external.
  unfold mbind at 1 2 3, M_bind. rewrite H1, H2.
  destruct (find_transcript env url tl _) as [[[[t lang]|r]|e] s1]; try reflexivity.
Qed.

Lemma get_transcript_no_v url target s :
  PyStr.contains "v=" url = false →
  get_transcript env url target s = (Raise IndexError, show error_banner s).
Proof.
  intros H. unfold get_transcript, try_except, lift.
  unfold mbind at 1, M_bind. now rewrite (PyStrFacts.getitem_split_absent _ _ H).
Qed.

Lemma calls_report out : calls (report out).2 = calls out.2.
Proof. destruct out as [[r|e] s]; reflexivity. Qed.

Lemma fst_report out : (report out).1 = out.1.
Proof. destruct out as [[r|e] s]; reflexivity. Qed.

(** A caption track found: the outcome is that of the track. *)
Lemma get_transcript_captions url target s vid tl t s1 :
  getitem (PyStr.split "v=" url) 1 = Ok vid →
  list_transcripts env vid = Ok tl →
  find_transcript env url tl (log_call (CallListTranscripts vid) s)
  = (Ok (inl (t, language_code t)), s1) →
  (get_transcript env url target s).1 = caption_result env t target ∧
  calls (get_transcript env url target s).2 = calls s1 ++ caption_calls env t target.
Proof.
  intros H1 H2 H3. rewrite (get_transcript_unfold _ _ _ _ _ H1 H2), H3.
  rewrite fst_report, calls_report. apply fetch_text_run.
Qed.

End ResolverFacts.

Section AudioAppends.
Variable env : Services.


Variable P : call → Prop.
Hypothesis audio_P : ∀ c, audio c → P c.

Lemma appends_os_remove path : appends P (os_remove env path).
Proof.
  apply (appends_one _ _ (CallRemove path)); [now apply audio_P|].
  intros s. unfold os_remove.
  destruct (fs s !! path) as [[]|]; [destruct (os_denied env path)| |]; reflexivity.
Qed.

Lemma appends_os_rmdir path : appends P (os_rmdir env path).
Proof.
  apply (appends_one _ _ (CallRmdir path)); [now apply audio_P|].
  intros s. unfold os_rmdir. destruct (fs s !! path) as [[]|]; [| |]; try reflexivity.
  destruct (os_denied env path); [reflexivity|]. case_bool_decide; reflexivity.
Qed.

Lemma appends_mkdtemp : appends P (call_mkdtemp env).
Proof.
  apply (appends_one _ _ CallMkdtemp); [now apply audio_P|].
  intros s. unfold call_mkdtemp. destruct (mkdtemp env (fs s)); reflexivity.
Qed.

Lemma appends_stream_download strm d f : appends P (call_stream_download env strm d f).
Proof.
  apply (appends_one _ _ (CallStreamDownload strm d f)); [now apply audio_P|].
  intros s. unfold call_stream_download. destruct (stream_download env strm d f); reflexivity.
Qed.

Lemma appends_transcribe_audio path : appends P (transcribe_audio env path).
Proof.
  apply appends_try; [|intros; apply appends_raise].
  apply appends_external. now apply audio_P.
Qed.

Lemma appends_cleanup path :
  appends P (try_except (os_remove env path;; os_rmdir env (os_path_dirname path))
               (λ _, mret ())).
Proof.
  apply appends_try; [|intros; apply appends_mret].
  apply appends_bind; [apply appends_os_remove | intros; apply appends_os_rmdir].
Qed.

(** What follows the request for the audio stream in [download_audio]. *)
Lemma appends_download_rest (strm : option Stream) :
  appends P
    (temp_dir ← call_mkdtemp env;
     match strm with
     | Some strm => call_stream_download env strm temp_dir "audio.mp4"
     | None => raise (AttributeError "'NoneType' object has no attribute 'download'")
     end;;
     mret (os_path_join temp_dir "audio.mp4")).
Proof.
  apply appends_bind; [apply appends_mkdtemp|]. intros d.
  apply appends_bind; [|intros; apply appends_mret].
  destruct strm; [apply appends_stream_download | apply appends_raise].
Qed.

(** What follows the download in the fallback. *)
Lemma appends_fallback_rest (path : string) :
  appends P
    (transcribed_text ← transcribe_audio env path;
     try_except (os_remove env path;; os_rmdir env (os_path_dirname path)) (λ _, mret ());;
     mret {| text := transcribed_text; original_language := "auto-detected" |}).
Proof.
  apply appends_bind; [apply appends_transcribe_audio|]. intros txt.
  apply appends_bind; [apply appends_cleanup | intros; apply appends_mret].
Qed.

Lemma appends_download_audio url : appends P (download_audio env url).
Proof.
  apply appends_try; [|intros; apply appends_raise].
  apply appends_bind; [|apply appends_download_rest].
  apply appends_external. now apply audio_P.
Qed.

Lemma appends_speech_to_text_fallback url : appends P (speech_to_text_fallback env url).
Proof.
  apply appends_bind; [apply appends_st|]. intros _.
  apply appends_bind; [apply appends_download_audio | apply appends_fallback_rest].
Qed.

End AudioAppends.

Section AudioFacts.
Variable env : Services.

Lemma calls_try_raise {A : Type} (m : M A) (g : exn → exn) (s : State) :
  calls (try_except m (λ e, raise (g e)) s).2 = calls (m s).2.
Proof. unfold try_except, raise. now destruct (m s) as [[a|e] s1]. Qed.

Lemma bind_calls_cons {A B : Type} (P : call → Prop) (c : call)
    (m : M A) (f : A → M B) (s : State) :
  (∃ tail, calls (m s).2 = calls s ++ c :: tail ∧ Forall P tail) →
  (∀ a, appends P (f a)) →
  ∃ tail, calls ((m ≫= f) s).2 = calls s ++ c :: tail ∧ Forall P tail.
Proof.
  intros (t1 & E1 & F1) Hf. unfold mbind, M_bind.
  destruct (m s) as [[a|e] s1]; simpl in *; [|now exists t1].
  destruct (Hf a s1) as (t2 & E2 & F2). exists (t1 ++ t2).
  rewrite E2, E1, <- app_assoc. split; [reflexivity | now apply Forall_app].
Qed.

Lemma external_calls_cons {A : Type} (P : call → Prop) (c : call) (r : result A) (s : State) :
  ∃ tail, calls (external c r s).2 = calls s ++ c :: tail ∧ Forall P tail.
Proof. exists []. easy. Qed.

(** The download starts with the request for the audio stream. *)
Lemma download_audio_calls url s :
  ∃ tail, calls (download_audio env url s).2 = calls s ++ CallYouTube url :: tail ∧
          Forall audio tail.
Proof.
  unfold download_audio. rewrite calls_try_raise.
  apply bind_calls_cons; [apply external_calls_cons|]. intros strm.
  now apply appends_download_rest.
Qed.

(** The fallback starts with the download and makes audio calls only. *)
Lemma speech_to_text_fallback_calls url s :
  ∃ tail, calls (speech_to_text_fallback env url s).2 = calls s ++ CallYouTube url :: tail ∧
          Forall audio tail.
Proof.
  unfold speech_to_text_fallback.
  erewrite bind_ok; [|reflexivity].
  change (calls s) with (calls (show stt_warning s)).
  apply bind_calls_cons; [apply download_audio_calls|]. intros path.
  now apply appends_fallback_rest.
Qed.

Lemma transcribe_audio_ok_inv path s txt s1 :
  transcribe_audio env path s = (Ok txt, s1) → whisper_transcribe env path = Ok txt.
Proof.
  unfold transcribe_audio, try_except, call_whisper, external, raise.
  destruct (whisper_transcribe env path); [now intros [= ->] | discriminate].
Qed.

Lemma transcribe_audio_raise path s e :
  whisper_transcribe env path = Raise e →
  transcribe_audio env path s
  = (Raise (Exception ("Error transcribing audio: " +:+ str_exn e)),
     log_call (CallWhisper path) s).
Proof.
  intros H. unfold transcribe_audio, try_except, call_whisper, external, raise.
  now rewrite H.
Qed.

(** What the fallback returns is what speech-to-text gave, under the
    sentinel language. *)
Lemma speech_to_text_fallback_ok_inv url s r s1 :
  speech_to_text_fallback env url s = (Ok r, s1) →
  original_language r = "auto-detected" ∧
  ∃ path, whisper_transcribe env path = Ok (text r).
Proof.
  unfold speech_to_text_fallback. intros H.
  apply bind_ok_inv in H as (? & s2 & _ & H).
  apply bind_ok_inv in H as (path & s3 & _ & H).
  apply bind_ok_inv in H as (txt & s4 & Ht & H).
  apply bind_ok_inv in H as (? & s5 & _ & [= <- _]).
  split; [reflexivity|]. exists path. simpl. eapply transcribe_audio_ok_inv, Ht.
Qed.

(** The clean-up never raises. *)
Lemma cleanup_swallowed path s :
  ∃ s1, try_except (os_remove env path;; os_rmdir env (os_path_dirname path))
          (λ _, mret ()) s = (Ok (), s1).
Proof.
  unfold try_except.
  destruct (@mbind M _ _ _ _ _ s) as [[[]|e] s1]; eauto.
Qed.

(** When transcription succeeds the fallback succeeds, whatever the
    removal of the file and of the directory does. *)
Lemma speech_to_text_fallback_ok url s path s1 txt :
  download_audio env url (show stt_warning s) = (Ok path, s1) →
  whisper_transcribe env path = Ok txt →
  ∃ s2, speech_to_text_fallback env url s
        = (Ok {| text := txt; original_language := "auto-detected" |}, s2).
Proof.
  intros Hd Hw. unfold speech_to_text_fallback.
  erewrite bind_ok; [|reflexivity].
  erewrite bind_ok; [|exact Hd].
  erewrite bind_ok;
    [|unfold transcribe_audio, call_whisper, external; apply try_ok; now rewrite Hw].
  destruct (cleanup_swallowed path (log_call (CallWhisper path) s1)) as (s2 & Hc).
  erewrite bind_ok; [|exact Hc]. now exists s2.
Qed.

(** When transcription raises, the fallback raises at once: nothing after
    the call to the model is run. *)
Lemma speech_to_text_fallback_raise url s path s1 e :
  download_audio env url (show stt_warning s) = (Ok path, s1) →
  whisper_transcribe env path = Raise e →
  speech_to_text_fallback env url s
  = (Raise (Exception ("Error transcribing audio: " +:+ str_exn e)),
     log_call (CallWhisper path) s1).
Proof.
  intros Hd Hw. unfold speech_to_text_fallback.
  erewrite bind_ok; [|reflexivity].
  erewrite bind_ok; [|exact Hd].
  erewrite bind_raise; [reflexivity|]. now apply transcribe_audio_raise.
Qed.

(** A download that returns has written the file it names. *)
Lemma download_audio_ok_inv url s path s1 :
  download_audio env url s = (Ok path, s1) → fs s1 !! path = Some File.
Proof.
  unfold download_audio, try_except. 
  destruct (@mbind M _ _ _ _ _ s) as [[p|e] s2] eqn:E; [|discriminate].
  intros [= <- <-].
  apply bind_ok_inv in E as (strm & s3 & _ & E).
  apply bind_ok_inv in E as (d & s4 & _ & E).
  apply bind_ok_inv in E as (? & s5 & Hdl & [= <- <-]).
  destruct strm as [strm|]; [|discriminate].
  unfold call_stream_download in Hdl.
  destruct (stream_download env strm d "audio.mp4"); [|discriminate].
  injection Hdl as _ Hs. rewrite <- Hs.
  change (fs (set_fs ?f ?s)) with (f (fs s)). apply lookup_insert_eq.
Qed.

(** The audio path when transcription raises: [get_transcript] raises, and
    the file system is as the download left it, with the audio file in it. *)
Lemma transcription_failure_keeps_audio (url target : string) (s : State)
    (vid : string) (tl : TranscriptList) (e1 e2 e : exn) (path : string) (s1 : State) :
  getitem (PyStr.split "v=" url) 1 = Ok vid →
  list_transcripts env vid = Ok tl →
  find_manually_created_transcript env tl supported_languages = Raise e1 →
  find_generated_transcript env tl supported_languages = Raise e2 →
  download_audio env url
    (show stt_warning
       (log_call (CallFindGenerated tl supported_languages)
          (log_call (CallFindManual tl supported_languages)
             (log_call (CallListTranscripts vid) s))))
  = (Ok path, s1) →
  whisper_transcribe env path = Raise e →
  (get_transcript env url target s).1
  = Raise (Exception ("Error transcribing audio: " +:+ str_exn e)) ∧
  fs (get_transcript env url target s).2 = fs s1 ∧
  fs s1 !! path = Some File.
Proof.
  intros Hv Hl Hm Hg Hd Hw.
  rewrite (get_transcript_unfold env url target s vid tl Hv Hl).
  rewrite (find_transcript_fallback env url tl e1 e2 _ Hm Hg).
  erewrite bind_raise; [|now apply (speech_to_text_fallback_raise url _ path s1 e)].
  repeat split. apply (download_audio_ok_inv _ _ _ _ Hd).
Qed.

End AudioFacts.

(* ===================================================================== *)
(** * The acquisition policy                                              *)
(* ===================================================================== *)

Section ResolverClaims.
Variable env : Services.

(** C4.  A caption track found by the manual or by the generated look-up
    whose language code is not the language asked for is translated into
    that language before anything is fetched: the translation request is
    the first call after the look-ups, the only fetch is the one of the
    translated track, and a result that is returned carries the language
    code of the track that was found, not the language asked for. *)
Theorem translation_before_fetch (url target : string) (s : State)
    (vid : string) (tl : TranscriptList) (t : Transcript) :
  getitem (PyStr.split "v=" url) 1 = Ok vid →
  list_transcripts env vid = Ok tl →
  find_manually_created_transcript env tl supported_languages = Ok t ∨
  (∃ e, find_manually_created_transcript env tl supported_languages = Raise e ∧
        find_generated_transcript env tl supported_languages = Ok t) →
  language_code t ≠ target →
  let out := get_transcript env url target s in
  (∃ looked_up,
     calls out.2 = calls s ++ looked_up ++
       CallTranslate t target ::
       match translate env t target with
       | Ok t' => [CallFetch t']
       | Raise _ => []
       end ∧
     Forall (λ c, ∀ x, c ≠ CallFetch x) looked_up) ∧
  (∀ r, out.1 = Ok r →
     original_language r = language_code t ∧
     ∃ t' segs, translate env t target = Ok t' ∧ fetch env t' = Ok segs ∧
                text r = PyStr.join " " (snippet_text <$> segs)).
Proof.
  intros Hv Hl Hfound Hne out.
  assert (Hcalls : caption_calls env t target =
                   CallTranslate t target ::
                   match translate env t target with
                   | Ok t' => [CallFetch t']
                   | Raise _ => []
                   end).
  { unfold caption_calls.
    destruct (decide (target ≠ language_code t)) as [_|Hn]; [reflexivity|].
    exfalso. apply Hn. congruence. }
  assert (Hres : ∀ r, caption_result env t target = Ok r →
     original_language r = language_code t ∧
     ∃ t' segs, translate env t target = Ok t' ∧ fetch env t' = Ok segs ∧
                text r = PyStr.join " " (snippet_text <$> segs)).
  { intros r Hr. apply caption_result_ok_inv in Hr as (Hlang & t' & segs & Ht & Hf & Htxt).
    split; [exact Hlang|]. exists t', segs. repeat split; try assumption.
    unfold translated in Ht.
    destruct (decide (target ≠ language_code t)) as [_|Hn]; [exact Ht|].
    exfalso. apply Hn. congruence. }
  destruct Hfound as [Hm | (e & Hm & Hg)].
  - destruct (get_transcript_captions env url target s vid tl t _ Hv Hl
                (find_transcript_manual env url tl t _ Hm)) as [Hr Hc].
    fold out in Hr, Hc. split.
    + exists [CallListTranscripts vid; CallFindManual tl supported_languages].
      rewrite Hc, Hcalls. simpl. rewrite <- !app_assoc. split; [reflexivity|].
      repeat constructor; discriminate.
    + intros r Hout. apply Hres. congruence.
  - destruct (get_transcript_captions env url target s vid tl t _ Hv Hl
                (find_transcript_generated env url tl e t _ Hm Hg)) as [Hr Hc].
    fold out in Hr, Hc. split.
    + exists [CallListTranscripts vid; CallFindManual tl supported_languages;
              CallFindGenerated tl supported_languages].
      rewrite Hc, Hcalls. simpl. rewrite <- !app_assoc. split; [reflexivity|].
      repeat constructor; discriminate.
    + intros r Hout. apply Hres. congruence.
Qed.

(** C10.  On the audio path (both caption look-ups raise) the language
    asked for plays no part: two calls that differ only in it end with the
    same outcome and the same state, and a result that is returned has the
    sentinel [auto-detected] as language and the output of speech-to-text as
    text, with no translation requested on the way. *)
Theorem fallback_ignores_target (url lang1 lang2 : string) (s : State)
    (vid : string) (tl : TranscriptList) (e1 e2 : exn) :
  getitem (PyStr.split "v=" url) 1 = Ok vid →
  list_transcripts env vid = Ok tl →
  find_manually_created_transcript env tl supported_languages = Raise e1 →
  find_generated_transcript env tl supported_languages = Raise e2 →
  get_transcript env url lang1 s = get_transcript env url lang2 s ∧
  ∀ r s1, get_transcript env url lang1 s = (Ok r, s1) →
    original_language r = "auto-detected" ∧
    (∃ path, whisper_transcribe env path = Ok (text r)) ∧
    (∀ t l, CallTranslate t l ∉ calls s → CallTranslate t l ∉ calls s1).
Proof.
  intros Hv Hl Hm Hg.
  rewrite !(get_transcript_unfold env url _ s vid tl Hv Hl).
  rewrite (find_transcript_fallback env url tl e1 e2 _ Hm Hg).
  set (s0 := log_call _ (log_call _ (log_call _ s))).
  destruct (speech_to_text_fallback_calls env url s0) as (tail & E & F).
  unfold mbind, M_bind, mret, M_ret.
  destruct (speech_to_text_fallback env url s0) as [[r|e] s2] eqn:Hstt; simpl in *.
  - split; [reflexivity|]. intros r' s1 [= <- <-].
    destruct (speech_to_text_fallback_ok_inv env url s0 r s2 Hstt) as [Ho Hw].
    split; [exact Ho|]. split; [exact Hw|].
    intros t l Hnot Hin. rewrite E in Hin.
    apply elem_of_app in Hin as [Hin|Hin].
    + subst s0. simpl in Hin.
      repeat (apply elem_of_app in Hin as [Hin|Hin];
              [|apply list_elem_of_singleton in Hin; discriminate]).
      contradiction.
    + apply elem_of_cons in Hin as [Hin|Hin]; [discriminate|].
      rewrite Forall_forall in F. specialize (F _ Hin). discriminate.
  - split; [reflexivity|]. discriminate.
Qed.

Lemma join_empty_iff (l : list string) :
  PyStr.join " " l = "" ↔ l = [] ∨ l = [""].
Proof.
  split.
  - destruct l as [|x [|y l]]; simpl; [auto | intros ->; auto |].
    intros H. destruct x; discriminate.
  - intros [-> | ->]; reflexivity.
Qed.

(** A call of [get_transcript] that returns went through the video id, the
    track list and the nested [try]. *)
Lemma get_transcript_ok_inv (url target : string) (s s1 : State) (r : TranscriptResult) :
  get_transcript env url target s = (Ok r, s1) →
  ∃ vid tl,
    getitem (PyStr.split "v=" url) 1 = Ok vid ∧
    list_transcripts env vid = Ok tl ∧
    (find_transcript env url tl (log_call (CallListTranscripts vid) s) = (Ok (inr r), s1) ∨
     ∃ t s0,
       find_transcript env url tl (log_call (CallListTranscripts vid) s)
       = (Ok (inl (t, language_code t)), s0) ∧
       fetch_text env t (language_code t) target s0 = (Ok r, s1)).
Proof.
  intros H.
  destruct (getitem (PyStr.split "v=" url) 1) as [vid|e] eqn:Hv.
  2:{ unfold get_transcript, try_except, lift in H. unfold mbind at 1, M_bind in H.
      rewrite Hv in H. discriminate. }
  destruct (list_transcripts env vid) as [tl|e] eqn:Hl.
  2:{ unfold get_transcript, try_except, lift, call_list_transcripts, external in H.
      unfold mbind at 1 2, M_bind in H. rewrite Hv, Hl in H. discriminate. }
  exists vid, tl. split; [first [reflexivity | exact Hv]|].
  split; [first [reflexivity | exact Hl]|].
  rewrite (get_transcript_unfold env url target s vid tl Hv Hl) in H.
  destruct (find_transcript env url tl _) as [[[[t lang]|r']|e] s0] eqn:Hf.
  - right. destruct (find_transcript_inl env _ _ _ _ _ _ Hf) as [-> _].
    exists t, s0. split; [reflexivity|].
    destruct (fetch_text env t (language_code t) target s0) as [[r'|e] s2];
      simpl in H; [congruence | discriminate].
  - left. congruence.
  - discriminate.
Qed.

End ResolverClaims.

(* ===================================================================== *)
(** * Translations asked for                                              *)
(* ===================================================================== *)

Section TranslationTargets.
Variable env : Services.

Lemma audio_translates_into (lang : string) (c : call) :
  audio c → translates_into lang c.
Proof. destruct c; simpl; try easy. Qed.

Lemma appends_find_transcript (lang url : string) (tl : TranscriptList) :
  appends (translates_into lang) (find_transcript env url tl).
Proof.
  apply appends_try.
  { apply appends_bind; [now apply appends_external | intros; apply appends_mret]. }
  intros _. apply appends_try.
  { apply appends_bind; [now apply appends_external | intros; apply appends_mret]. }
  intros _. apply appends_bind; [|intros; apply appends_mret].
  apply appends_speech_to_text_fallback, audio_translates_into.
Qed.

Lemma appends_fetch_text (lang : string) (t : Transcript) (original_lang : string) :
  appends (translates_into lang) (fetch_text env t original_lang lang).
Proof.
  apply appends_bind.
  { destruct (decide (lang ≠ original_lang));
      [now apply appends_external | apply appends_mret]. }
  intros t'. apply appends_bind; [now apply appends_external | intros; apply appends_mret].
Qed.

Lemma appends_get_transcript (lang url : string) :
  appends (translates_into lang) (get_transcript env url lang).
Proof.
  apply appends_try.
  2:{ intros e. apply appends_bind; [apply appends_st | intros; apply appends_raise]. }
  apply appends_bind; [apply appends_lift|]. intros vid.
  apply appends_bind; [now apply appends_external|]. intros tl.
  apply appends_bind; [apply appends_find_transcript|].
  intros [[t l]|r]; [apply appends_fetch_text | apply appends_mret].
Qed.

Lemma appends_get_cached_transcript (lang url : string) :
  appends (translates_into lang) (get_cached_transcript env url lang).
Proof. apply appends_cache_data; [reflexivity | apply appends_get_transcript]. Qed.

Lemma appends_generate_cached_summary (lang transcript_text : string) :
  appends (translates_into lang) (generate_cached_summary env transcript_text).
Proof.
  apply appends_cache_data; [reflexivity|]. apply appends_try.
  - now apply appends_external.
  - intros e. apply appends_bind; [apply appends_st | intros; apply appends_raise].
Qed.

Lemma appends_summary_action (url : string) :
  appends (translates_into "en") (summary_action env url).
Proof.
  apply appends_try.
  - apply appends_bind; [apply appends_get_cached_transcript|]. intros d.
    apply appends_bind; [apply appends_generate_cached_summary|]. intros summary.
    apply appends_bind; [apply appends_st | intros; apply appends_st].
  - intros e. apply appends_bind; [apply appends_st | intros; apply appends_st].
Qed.

Lemma appends_ask_action (url question : string) :
  appends (translates_into "en") (ask_action env url question).
Proof.
  apply appends_try; [|intros; apply appends_st].
  apply appends_bind; [apply appends_get_transcript|]. intros d.
  apply appends_bind; [now apply appends_external | intros; apply appends_st].
Qed.

Lemma appends_transcript_action (url lang : string) :
  appends (translates_into lang) (transcript_action env url lang).
Proof.
  apply appends_try; [|intros; apply appends_st].
  apply appends_bind; [apply appends_get_cached_transcript|]. intros d.
  apply appends_bind; [apply appends_st|]. intros _.
  apply appends_bind; [apply appends_st | intros; apply appends_st].
Qed.

Lemma appends_when (P : call → Prop) (b : bool) (m : M unit) :
  appends P m → appends P (when b m).
Proof. destruct b; [easy | intros; apply appends_mret]. Qed.

(** Without the "Get Transcript" button, a run asks for English only. *)
Lemma appends_script (w : Widgets) :
  transcript_btn w = false → appends (translates_into "en") (script env w).
Proof.
  intros Hbtn. unfold script.
  apply appends_bind; [apply appends_st|]. intros _.
  case_bool_decide; [apply appends_mret|].
  apply appends_try.
  2:{ intros []; apply appends_st. }
  apply appends_bind; [apply appends_lift|]. intros vid.
  apply appends_bind; [apply appends_st|]. intros _.
  apply appends_bind; [apply appends_st|]. intros _.
  apply appends_bind; [apply appends_when, appends_summary_action|]. intros _.
  apply appends_bind; [apply appends_st|]. intros _.
  apply appends_bind; [apply appends_when, appends_ask_action|]. intros _.
  rewrite Hbtn. apply appends_mret.
Qed.

Lemma script_with_language (w : Widgets) (lang : string) (s : State) :
  transcript_btn w = false → script env (with_language lang w) s = script env w s.
Proof.
  intros Hbtn. unfold script, with_language.
  cbn [url_input target_language user_question summary_btn ask_btn transcript_btn].
  now rewrite Hbtn.
Qed.

(** A marker without its separator: the page shows the invalid-URL banner
    and does nothing else. *)
Lemma script_missing_separator (w : Widgets) (s : State) :
  extract_video_id (url_input w) = Raise IndexError →
  script env w s
  = (Ok (), show invalid_url_banner (show (st_title "YouTube Video Summarizer") s)).
Proof.
  intros H. unfold script.
  erewrite bind_ok; [|reflexivity].
  case_bool_decide as Hurl; [rewrite Hurl in H; discriminate|].
  erewrite (try_raise _ _ _ _ IndexError); [reflexivity|].
  apply bind_raise. unfold lift. now rewrite H.
Qed.

End TranslationTargets.

(* ===================================================================== *)
(** * The memoised resolver                                               *)
(* ===================================================================== *)

Section Memo.
Variable env : Services.

(** A fresh entry answers the call: nothing is run and nothing changes. *)
Lemma get_cached_transcript_hit (url target : string) (s : State)
    (r : TranscriptResult) (stored_at : nat) :
  transcript_cache s !! (url, target) = Some (r, stored_at) →
  now s < stored_at + ttl →
  get_cached_transcript env url target s = (Ok r, s).
Proof.
  intros Hc Hfresh. unfold get_cached_transcript, cache_data. rewrite Hc.
  now rewrite bool_decide_eq_true_2.
Qed.

(** A call that returns leaves a fresh entry with what it returned. *)
Lemma get_cached_transcript_stores (url target : string) (s s1 : State)
    (r : TranscriptResult) :
  get_cached_transcript env url target s = (Ok r, s1) →
  ∃ stored_at, transcript_cache s1 !! (url, target) = Some (r, stored_at) ∧
               now s1 < stored_at + ttl.
Proof.
  unfold get_cached_transcript, cache_data. intros H.
  assert (Hrun :
    match get_transcript env url target s with
    | (Ok v, s') =>
        (Ok v, set_transcript_cache (<[(url, target) := (v, now s')]> (transcript_cache s')) s')
    | (Raise e, s') => (Raise e, s')
    end = (Ok r, s1) →
    ∃ stored_at, transcript_cache s1 !! (url, target) = Some (r, stored_at) ∧
                 now s1 < stored_at + ttl).
  { destruct (get_transcript env url target s) as [[v|e] s']; [|discriminate].
    intros [= -> <-]. exists (now s'). simpl. split; [apply lookup_insert_eq|].
    unfold ttl. lia. }
  destruct (transcript_cache s !! (url, target)) as [[v stored_at]|] eqn:Hc; [|auto].
  case_bool_decide as Hfresh; [|auto].
  injection H as -> <-. eauto.
Qed.

End Memo.

(* ===================================================================== *)
(** * The page, the memoised resolver and the extractor                   *)
(* ===================================================================== *)

Section PageClaims.
Variable env : Services.

(** C6, as amended.  For a URL in which the marker that selects the branch
    is present and the separator of that branch is absent, the extraction
    raises [IndexError] from the unguarded index, and the page script
    catches it in its [except IndexError] clause: the run shows the
    invalid-URL banner, produces no identifier and calls no service. *)
Theorem missing_separator_reported (w : Widgets) (s : State) :
  (PyStr.contains "youtu.be" (url_input w) = true ∧
   PyStr.contains "youtu.be/" (url_input w) = false) ∨
  (PyStr.contains "youtu.be" (url_input w) = false ∧
   PyStr.contains "youtube.com" (url_input w) = true ∧
   PyStr.contains "v=" (url_input w) = false) →
  extract_video_id (url_input w) = Raise IndexError ∧
  script env w s
  = (Ok (), show invalid_url_banner (show (st_title "YouTube Video Summarizer") s)).
Proof.
  intros H. apply Extractor.extract_missing_separator in H.
  split; [exact H | now apply script_missing_separator].
Qed.

(** C8.  After a call of the memoised resolver that returned, the table
    holds what it returned under the pair (URL, language), and the entry is
    fresh; every later call with the same pair, made from any state in which
    that entry is there and younger than the time-to-live, returns the same
    result and adds nothing to the call log: no caption, download or
    speech-to-text call is made. *)
Theorem cached_transcript_reused (url target : string) (s s1 : State)
    (r : TranscriptResult) :
  get_cached_transcript env url target s = (Ok r, s1) →
  ∃ stored_at,
    transcript_cache s1 !! (url, target) = Some (r, stored_at) ∧
    now s1 < stored_at + ttl ∧
    ∀ s2, transcript_cache s2 !! (url, target) = Some (r, stored_at) →
          now s2 < stored_at + ttl →
          (get_cached_transcript env url target s2).1 = Ok r ∧
          calls (get_cached_transcript env url target s2).2 = calls s2.
Proof.
  intros H. destruct (get_cached_transcript_stores env _ _ _ _ _ H) as (t0 & Hc & Hf).
  exists t0. split; [exact Hc|]. split; [exact Hf|].
  intros s2 Hc2 Hf2.
  now rewrite (get_cached_transcript_hit env url target s2 r t0 Hc2 Hf2).
Qed.

End PageClaims.

(** C5, as amended.  For a URL [p youtu.be/ id ? r] in which neither [p]
    nor [id] contains [youtu.be/] and [id] contains no question mark, the
    extractor returns [id]; for a URL [p youtube.com/watch?v= id & r] that
    does not contain [youtu.be] and in which neither [p] nor [id] contains
    [v=] and [id] contains no ampersand, the extractor returns [id]; for a
    URL that contains neither [youtu.be] nor [youtube.com], the extractor
    raises [ValueError "Invalid YouTube URL format"]. *)
Theorem extract_video_id_shapes (p ident r url : string) :
  (PyStr.contains "youtu.be/" p = false →
   PyStr.contains "youtu.be/" ident = false →
   PyStr.contains "?" ident = false →
   extract_video_id (p +:+ "youtu.be/" +:+ ident +:+ "?" +:+ r) = Ok ident) ∧
  (PyStr.contains "youtu.be" (p +:+ "youtube.com/watch?v=" +:+ ident +:+ "&" +:+ r) = false →
   PyStr.contains "v=" p = false →
   PyStr.contains "v=" ident = false →
   PyStr.contains "&" ident = false →
   extract_video_id (p +:+ "youtube.com/watch?v=" +:+ ident +:+ "&" +:+ r) = Ok ident) ∧
  (PyStr.contains "youtu.be" url = false →
   PyStr.contains "youtube.com" url = false →
   extract_video_id url = Raise (ValueError "Invalid YouTube URL format")).
Proof.
  split; [|split].
  - apply Extractor.extract_short_form.
  - apply Extractor.extract_long_form.
  - apply Extractor.extract_no_marker.
Qed.

(** C1.  On the URL of the end-to-end example the extractor of the page
    yields [abc123], but [get_transcript], which looks for [v=] only, raises
    [IndexError] before it asks the caption service anything. *)
Theorem short_url_is_not_resolved :
  extract_video_id short_url = Ok "abc123" ∧
  get_transcript hello_world short_url "en" initial_state
  = (Raise IndexError, show error_banner initial_state).
Proof.
  split; [reflexivity|].
  apply get_transcript_no_v. reflexivity.
Qed.

(** C2.  With no caption track, a download that succeeds and a
    transcription that raises, [get_transcript] raises and the audio file
    and its directory are still there: no removal was attempted. *)
Theorem audio_left_behind_when_transcription_fails :
  let out := get_transcript no_captions_stt_fails long_url "en" initial_state in
  out.1 = Raise (Exception "Error transcribing audio: ffmpeg failed") ∧
  fs out.2 !! "/tmp/tmp0/audio.mp4" = Some File ∧
  fs out.2 !! "/tmp/tmp0" = Some Dir ∧
  calls out.2 =
    [CallListTranscripts "abc123";
     CallFindManual [] supported_languages;
     CallFindGenerated [] supported_languages;
     CallYouTube long_url;
     CallMkdtemp;
     CallStreamDownload {| itag := 140; mime_type := "audio/mp4" |} "/tmp/tmp0" "audio.mp4";
     CallWhisper "/tmp/tmp0/audio.mp4"].
Proof. cbv zeta. repeat split; vm_compute; reflexivity. Qed.

(* ===================================================================== *)
(** * The program on the examples                                         *)
(* ===================================================================== *)

Example long_url_is_resolved :
  (get_transcript hello_world long_url "en" initial_state).1
  = Ok {| text := "Hello world"; original_language := "en" |}.
Proof. vm_compute. reflexivity. Qed.

Example audio_removed_when_transcription_succeeds :
  let out := get_transcript no_captions long_url "en" initial_state in
  out.1 = Ok {| text := "spoken words"; original_language := "auto-detected" |} ∧
  fs out.2 = ∅.
Proof. cbv zeta. split; vm_compute; reflexivity. Qed.

Example removal_failure_is_swallowed :
  let out := get_transcript
               (machine "abc123" [] (λ _, Ok []) (Ok "spoken words") (λ _, true))
               long_url "en" initial_state in
  out.1 = Ok {| text := "spoken words"; original_language := "auto-detected" |} ∧
  fs out.2 !! "/tmp/tmp0/audio.mp4" = Some File.
Proof. cbv zeta. split; vm_compute; reflexivity. Qed.

(** C5: the two shapes alone do not decide what the extractor returns.  A
    long-form URL that mentions [youtu.be] takes the short-form branch and
    raises; an earlier occurrence of a separator, or a separator inside the
    identifier, moves the cut. *)
Lemma url_shapes_not_enough :
  extract_video_id
    ("https://www." +:+ "youtube.com/watch?v=" +:+ "abc" +:+ "&" +:+ "feature=youtu.be")
  = Raise IndexError ∧
  extract_video_id ("https://youtu.be/x/" +:+ "youtu.be/" +:+ "abc" +:+ "?" +:+ "t=1")
  = Ok "x/" ∧
  extract_video_id ("https://" +:+ "youtu.be/" +:+ "ayoutu.be/b" +:+ "?" +:+ "t=1")
  = Ok "a" ∧
  extract_video_id ("https://?v=1&" +:+ "youtube.com/watch?v=" +:+ "abc" +:+ "&" +:+ "t=1")
  = Ok "1" ∧
  extract_video_id ("https://www." +:+ "youtube.com/watch?v=" +:+ "av=b" +:+ "&" +:+ "t=1")
  = Ok "a".
Proof. repeat split; vm_compute; reflexivity. Qed.

(** C6: a short-domain URL without the slash raises [IndexError], not the
    [ValueError] of the invalid-format branch. *)
Lemma missing_separator_is_index_error :
  PyStr.contains "youtu.be" "https://youtu.be" = true ∧
  PyStr.contains "youtu.be/" "https://youtu.be" = false ∧
  extract_video_id "https://youtu.be" = Raise IndexError ∧
  extract_video_id "https://youtu.be" ≠ Raise (ValueError "Invalid YouTube URL format").
Proof. repeat split; try (vm_compute; reflexivity). vm_compute. discriminate. Qed.

(** C7: a manual track without segments gives a result with empty text. *)
Lemma empty_track_gives_empty_text :
  (get_transcript empty_track long_url "en" initial_state).1
  = Ok {| text := ""; original_language := "en" |}.
Proof. vm_compute. reflexivity. Qed.

(* ===================================================================== *)
(** * The theorems at concrete inputs                                     *)
(* ===================================================================== *)

Lemma translation_before_fetch_witness :
  original_language hindi_result = language_code hindi_generated ∧
  ∃ t' segs, translate hindi_only hindi_generated "en" = Ok t' ∧
             fetch hindi_only t' = Ok segs ∧
             text hindi_result = PyStr.join " " (snippet_text <$> segs).
Proof.
  assert (Hne : language_code hindi_generated ≠ "en") by discriminate.
  destruct (translation_before_fetch hindi_only long_url "en" initial_state
              "abc123" [hindi_generated] hindi_generated eq_refl eq_refl
              (or_intror (ex_intro _ (LibraryError "NoTranscriptFound")
                            (conj eq_refl eq_refl))) Hne) as [_ Hreturned].
  exact (Hreturned hindi_result eq_refl).
Defined.

Lemma extract_video_id_shapes_witness :
  extract_video_id ("https://" +:+ "youtu.be/" +:+ "abc123" +:+ "?" +:+ "t=5") = Ok "abc123" ∧
  extract_video_id ("https://www." +:+ "youtube.com/watch?v=" +:+ "abc123" +:+ "&" +:+ "t=5")
  = Ok "abc123" ∧
  extract_video_id "https://example.com/video"
  = Raise (ValueError "Invalid YouTube URL format").
Proof.
  destruct (extract_video_id_shapes "https://" "abc123" "t=5" "https://example.com/video")
    as (Hshort & _ & Hnone).
  destruct (extract_video_id_shapes "https://www." "abc123" "t=5" "https://example.com/video")
    as (_ & Hlong & _).
  split; [exact (Hshort eq_refl eq_refl eq_refl)|].
  split; [exact (Hlong eq_refl eq_refl eq_refl eq_refl)|].
  exact (Hnone eq_refl eq_refl).
Defined.

Lemma missing_separator_reported_witness :
  script hello_world bare_short_domain initial_state
  = (Ok (), show invalid_url_banner
              (show (st_title "YouTube Video Summarizer") initial_state)).
Proof.
  exact (proj2 (missing_separator_reported hello_world bare_short_domain initial_state
                  (or_introl (conj eq_refl eq_refl)))).
Defined.

Lemma cached_transcript_reused_witness :
  let s1 := (get_cached_transcript hello_world long_url "en" initial_state).2 in
  (get_cached_transcript hello_world long_url "en" (tick 3599 s1)).1 = Ok hello_world_result ∧
  calls (get_cached_transcript hello_world long_url "en" (tick 3599 s1)).2 = calls s1.
Proof.
  intros s1.
  assert (Hfirst : get_cached_transcript hello_world long_url "en" initial_state
                   = (Ok hello_world_result, s1)) by (vm_compute; reflexivity).
  destruct (cached_transcript_reused hello_world long_url "en" initial_state s1
              hello_world_result Hfirst) as (stored_at & Hentry & _ & Hagain).
  assert (Hat : stored_at = 0).
  { assert (Hc : transcript_cache s1 !! (long_url, "en") = Some (hello_world_result, 0))
      by (vm_compute; reflexivity).
    rewrite Hc in Hentry. now injection Hentry. }
  apply (Hagain (tick 3599 s1)); [exact Hentry|]. rewrite Hat. vm_compute. lia.
Defined.

Lemma fallback_ignores_target_witness :
  get_transcript no_captions long_url "en" initial_state
  = get_transcript no_captions long_url "fr" initial_state.
Proof.
  exact (proj1 (fallback_ignores_target no_captions long_url "en" "fr" initial_state
                  "abc123" [] (LibraryError "NoTranscriptFound")
                  (LibraryError "NoTranscriptFound")
                  eq_refl eq_refl eq_refl eq_refl)).
Defined.

(* ===================================================================== *)
(** * More about the extractor                                            *)
(* ===================================================================== *)

Module ExtractorFacts.
Import PyStr PyStrFacts.

Lemma getitem_split_0 (sep s : string) : ∃ y, getitem (split sep s) 0 = Ok y.
Proof.
  unfold split. destruct (split_from_head sep s 0 "") as (y & l & ->).
  now exists ("" +:+ y).
Qed.

(** The first piece of a split at one character does not contain it. *)
Lemma split_char_head (c : ascii) (s piece y : string) (l : list string) :
  has_char c piece = false →
  split_from (String c "") s 0 piece = y :: l →
  has_char c y = false.
Proof.
  revert piece; induction s as [|a s IH]; intros piece Hp H.
  - injection H as <- _. exact Hp.
  - cbn [split_from] in H.
    assert (Hst : startswith (String c "") (String a s) = Ascii.eqb c a)
      by (simpl; now destruct (Ascii.eqb c a)).
    rewrite Hst in H. destruct (Ascii.eqb c a) eqn:E.
    + injection H as <- _. exact Hp.
    + apply (IH (piece +:+ String a "")); [|exact H].
      rewrite has_char_append, Hp. simpl. now rewrite E.
Qed.

Lemma getitem_split_char_0_clean (c : ascii) (s y : string) :
  getitem (split (String c "") s) 0 = Ok y → has_char c y = false.
Proof.
  unfold split, getitem.
  destruct (split_from (String c "") s 0 "") as [|y' l] eqn:E; [discriminate|].
  intros [= <-]. now apply (split_char_head c s "" y' l).
Qed.

(** No occurrence of the separator is created across a character that is
    not in it. *)
Lemma contains_append_blocked (sep x : string) (d : ascii) (r : string) :
  contains sep x = false → has_char d sep = false → contains sep r = false →
  contains sep (x +:+ String d r) = false.
Proof.
  intros Hx Hd Hr. induction x as [|a x IH].
  - push_append. rewrite contains_cons, Hr, orb_false_r.
    destruct sep as [|b sep]; [discriminate|]. simpl in *.
    apply orb_false_iff in Hd as [Hd _]. rewrite Ascii.eqb_sym in Hd. now rewrite Hd.
  - push_append. rewrite contains_cons in *. apply orb_false_iff in Hx as [Hs Hc].
    rewrite (IH Hc), orb_false_r.
    destruct (startswith sep (String a (x +:+ String d r))) eqn:E; [|reflexivity].
    destruct (startswith_append_inv sep (String a x) (String d r) E)
      as [H|(t & Hsep & Ht)]; [congruence|].
    destruct t as [|b t].
    + rewrite append_nil_r in Hsep. rewrite Hsep, startswith_refl in Hs. discriminate.
    + simpl in Ht. destruct (Ascii.eqb_spec b d) as [->|]; [|discriminate].
      rewrite Hsep, has_char_append in Hd. simpl in Hd.
      rewrite Ascii.eqb_refl in Hd. simpl in Hd. rewrite orb_true_r in Hd. discriminate.
Qed.

End ExtractorFacts.

Ltac outcome_cases :=
  repeat split; intros;
  repeat match goal with
         | H : _ ∧ _ |- _ => destruct H
         | H : _ ∨ _ |- _ => destruct H
         | H : ∃ _, _ |- _ => destruct H
         end;
  try discriminate; eauto.

(** X1.  The extractor fails in two ways only.  It raises [IndexError]
    exactly when the marker that selects the branch is present and the
    separator of that branch is absent; it raises the [ValueError] of the
    invalid format exactly when neither marker is present; for every other
    URL it returns an identifier. *)
Theorem extract_video_id_outcomes (url : string) :
  (extract_video_id url = Raise IndexError ↔
     (PyStr.contains "youtu.be" url = true ∧ PyStr.contains "youtu.be/" url = false) ∨
     (PyStr.contains "youtu.be" url = false ∧ PyStr.contains "youtube.com" url = true ∧
      PyStr.contains "v=" url = false)) ∧
  (extract_video_id url = Raise (ValueError "Invalid YouTube URL format") ↔
     PyStr.contains "youtu.be" url = false ∧ PyStr.contains "youtube.com" url = false) ∧
  ((∃ vid, extract_video_id url = Ok vid) ↔
     (PyStr.contains "youtu.be/" url = true) ∨
     (PyStr.contains "youtu.be" url = false ∧ PyStr.contains "youtube.com" url = true ∧
      PyStr.contains "v=" url = true)).
Proof.
  assert (Hslash : PyStr.contains "youtu.be/" url = true → PyStr.contains "youtu.be" url = true).
  { clear. induction url as [|a url IH]; [discriminate|].
    rewrite !PyStrFacts.contains_cons. intros H. apply orb_true_iff in H as [H|H].
    - destruct (PyStrFacts.startswith_inv _ _ H) as [y Hy]. rewrite Hy.
      reflexivity.
    - rewrite (IH H). apply orb_true_r. }
  assert (Hpresent : ∀ sep tail_sep, sep ≠ "" → PyStr.contains sep url = true →
            ∃ vid, (rest ← getitem (PyStr.split sep url) 1;
                    getitem (PyStr.split tail_sep rest) 0) = Ok vid).
  { intros sep tail_sep Hne Hc.
    destruct (PyStrFacts.getitem_split_present sep url Hc Hne) as [x ->].
    apply ExtractorFacts.getitem_split_0. }
  unfold extract_video_id.
  destruct (PyStr.contains "youtu.be" url) eqn:E1.
  - destruct (PyStr.contains "youtu.be/" url) eqn:E2.
    + assert (Hne : "youtu.be/" ≠ "") by discriminate.
      destruct (Hpresent "youtu.be/" "?" Hne E2) as [vid ->]. outcome_cases.
    + rewrite (PyStrFacts.getitem_split_absent _ _ E2). cbn. outcome_cases.
  - destruct (PyStr.contains "youtu.be/" url) eqn:E2; [discriminate (Hslash eq_refl)|].
    destruct (PyStr.contains "youtube.com" url) eqn:E3.
    + destruct (PyStr.contains "v=" url) eqn:E4.
      * assert (Hne : "v=" ≠ "") by discriminate.
        destruct (Hpresent "v=" "&" Hne E4) as [vid ->]. outcome_cases.
      * rewrite (PyStrFacts.getitem_split_absent _ _ E4). cbn. outcome_cases.
    + outcome_cases.
Qed.

(** X2.  An identifier the extractor returns never contains the character
    its branch cuts at: no question mark on the short-domain branch, no
    ampersand on the long-domain branch. *)
Theorem extracted_id_has_no_delimiter (url vid : string) :
  extract_video_id url = Ok vid →
  (PyStr.contains "youtu.be" url = true → PyStr.contains "?" vid = false) ∧
  (PyStr.contains "youtu.be" url = false → PyStr.contains "&" vid = false).
Proof.
  unfold extract_video_id. intros H.
  destruct (PyStr.contains "youtu.be" url).
  - split; [intros _|discriminate].
    destruct (getitem (PyStr.split "youtu.be/" url) 1) as [rest|]; [|discriminate].
    cbn in H. rewrite Extractor.contains_char.
    now apply (ExtractorFacts.getitem_split_char_0_clean "?" rest vid).
  - split; [discriminate|intros _].
    destruct (PyStr.contains "youtube.com" url); [|discriminate].
    destruct (getitem (PyStr.split "v=" url) 1) as [rest|]; [|discriminate].
    cbn in H. rewrite Extractor.contains_char.
    now apply (ExtractorFacts.getitem_split_char_0_clean "&" rest vid).
Qed.

(* ===================================================================== *)
(** * Paths                                                               *)
(* ===================================================================== *)

Module PathFacts.
Import PyStr PyStrFacts.

Lemma upto_last_slash_no_slash (f : string) :
  has_char "/" f = false → upto_last_slash f = "".
Proof.
  induction f as [|a f IH]; [reflexivity|]. cbn [has_char upto_last_slash]. intros H.
  apply orb_false_iff in H as [Ha Hf].
  rewrite Extractor.contains_char, Hf. now rewrite Ascii.eqb_sym, Ha.
Qed.

Lemma upto_last_slash_append (x f : string) :
  has_char "/" f = false → upto_last_slash (x +:+ String "/" f) = x +:+ "/".
Proof.
  intros Hf. induction x as [|a x IH]; push_append.
  - cbn [upto_last_slash]. rewrite Extractor.contains_char, Hf. reflexivity.
  - cbn [upto_last_slash]. rewrite Extractor.contains_char, has_char_append.
    cbn [has_char]. rewrite Ascii.eqb_refl, orb_true_r. now rewrite IH.
Qed.

Lemma all_slashes_append (x y : string) :
  all_slashes (x +:+ y) = all_slashes x && all_slashes y.
Proof.
  induction x as [|a x IH]; push_append; [reflexivity|].
  cbn [all_slashes]. now rewrite IH, andb_assoc.
Qed.

Lemma endswith_slash_all_slashes (d : string) :
  d ≠ "" → endswith_slash d = false → all_slashes d = false.
Proof.
  induction d as [|a d IH]; [congruence|]. intros _ H.
  cbn [all_slashes]. destruct d as [|b d].
  - cbn [endswith_slash] in H. now rewrite H.
  - assert (Hne : String b d ≠ "") by discriminate.
    rewrite (IH Hne H). apply andb_false_r.
Qed.

Lemma rstrip_slash_append (d : string) :
  endswith_slash d = false → rstrip_slash (d +:+ "/") = d.
Proof.
  induction d as [|a d IH]; [reflexivity|]. intros H. push_append.
  cbn [rstrip_slash]. destruct d as [|b d].
  - cbn [endswith_slash] in H. push_append. cbn [rstrip_slash].
    rewrite Ascii.eqb_refl. now rewrite H.
  - rewrite (IH H). reflexivity.
Qed.

Lemma startswith_slash_no_slash (f : string) :
  has_char "/" f = false → startswith "/" f = false.
Proof.
  destruct f as [|a f]; [reflexivity|]. cbn [has_char startswith]. intros H.
  apply orb_false_iff in H as [Ha _]. now rewrite Ha.
Qed.

Lemma join_not_left (d f : string) : f ≠ "" → has_char "/" f = false → os_path_join d f ≠ d.
Proof.
  intros Hf Hs Heq. unfold os_path_join in Heq.
  rewrite (startswith_slash_no_slash f Hs) in Heq.
  assert (Hlen : ∀ x : string, d +:+ x = d → x = "").
  { intros x Hx. apply (f_equal String.length) in Hx. rewrite length_append in Hx.
    destruct x; [reflexivity | simpl in Hx; lia]. }
  destruct (bool_decide (d = "") || endswith_slash d).
  - now apply Hlen in Heq.
  - apply Hlen in Heq. discriminate.
Qed.

(** The directory of a file joined to a directory. *)
Lemma dirname_join (d f : string) :
  endswith_slash d = false → has_char "/" f = false →
  os_path_dirname (os_path_join d f) = d.
Proof.
  intros Hd Hf. unfold os_path_join.
  rewrite (startswith_slash_no_slash f Hf).
  destruct d as [|a d].
  - rewrite bool_decide_eq_true_2 by reflexivity. cbn [orb].
    rewrite append_nil_l. unfold os_path_dirname.
    now rewrite (upto_last_slash_no_slash f Hf).
  - rewrite Hd. cbn [orb bool_decide]. rewrite bool_decide_eq_false_2 by discriminate.
    cbn [orb]. unfold os_path_dirname.
    change ("/" +:+ f) with (String "/"%char f).
    rewrite (upto_last_slash_append (String a d) f Hf).
    rewrite bool_decide_eq_false_2 by discriminate.
    rewrite all_slashes_append.
    rewrite (endswith_slash_all_slashes (String a d)) by (discriminate || exact Hd).
    cbn [negb andb]. now apply rstrip_slash_append.
Qed.

End PathFacts.

(** X3.  The directory of a file joined to a directory is that directory:
    for a directory name without a trailing slash and a file name without a
    slash, [dirname(join(d, f)) = d].  So the directory the clean-up removes
    is the one [download_audio] created. *)
Theorem dirname_of_join (d f : string) :
  PyStr.endswith_slash d = false →
  PyStr.has_char "/" f = false →
  os_path_dirname (os_path_join d f) = d.
Proof. apply PathFacts.dirname_join. Qed.

(* ===================================================================== *)
(** * The audio path, step by step                                        *)
(* ===================================================================== *)

Section AudioSteps.
Variable env : Services.

Lemma os_remove_ok (path : string) (s : State) :
  fs s !! path = Some File → os_denied env path = false →
  os_remove env path s = (Ok (), set_fs (delete path) (log_call (CallRemove path) s)).
Proof. intros Hf Hd. unfold os_remove. now rewrite Hf, Hd. Qed.

Lemma os_remove_denied (path : string) (s : State) :
  fs s !! path = Some File → os_denied env path = true →
  os_remove env path s
  = (Raise (OSError "Permission denied"), log_call (CallRemove path) s).
Proof. intros Hf Hd. unfold os_remove. now rewrite Hf, Hd. Qed.

Lemma os_rmdir_ok (path : string) (s : State) :
  fs s !! path = Some Dir → os_denied env path = false →
  map_Forall (λ p _, os_path_dirname p ≠ path) (fs s) →
  os_rmdir env path s = (Ok (), set_fs (delete path) (log_call (CallRmdir path) s)).
Proof.
  intros Hf Hd Hempty. unfold os_rmdir. rewrite Hf, Hd.
  now rewrite bool_decide_eq_true_2.
Qed.

(** The state a successful download ends in. *)
Lemma download_audio_ok (url : string) (s : State) (strm : Stream) (d : string) :
  first_audio_stream env url = Ok (Some strm) →
  mkdtemp env (fs s) = Ok d →
  stream_download env strm d "audio.mp4" = Ok () →
  download_audio env url s
  = (Ok (os_path_join d "audio.mp4"),
     set_fs (insert (os_path_join d "audio.mp4") File)
       (log_call (CallStreamDownload strm d "audio.mp4")
          (set_fs (insert d Dir) (log_call CallMkdtemp (log_call (CallYouTube url) s))))).
Proof.
  intros Hs Hm Hd. unfold download_audio. apply try_ok.
  erewrite bind_ok; [|unfold call_first_audio_stream, external; now rewrite Hs].
  erewrite bind_ok; [|unfold call_mkdtemp; cbn [fs log_call]; now rewrite Hm].
  erewrite bind_ok; [reflexivity|]. unfold call_stream_download. now rewrite Hd.
Qed.

Lemma download_audio_inv (url : string) (s s1 : State) (path : string) :
  download_audio env url s = (Ok path, s1) →
  ∃ strm d,
    first_audio_stream env url = Ok (Some strm) ∧
    mkdtemp env (fs s) = Ok d ∧
    stream_download env strm d "audio.mp4" = Ok () ∧
    path = os_path_join d "audio.mp4".
Proof.
  unfold download_audio, try_except.
  destruct (@mbind M _ _ _ _ _ s) as [[p|e] s2] eqn:E; [|discriminate].
  intros [= <- <-].
  apply bind_ok_inv in E as (ostrm & s3 & Hs & E).
  apply bind_ok_inv in E as (d & s4 & Hm & E).
  apply bind_ok_inv in E as (? & s5 & Hdl & [= <- <-]).
  unfold call_first_audio_stream, external in Hs.
  destruct (first_audio_stream env url) as [o|] eqn:Hfs; [|discriminate].
  injection Hs as -> <-.
  unfold call_mkdtemp in Hm. cbn [fs log_call] in Hm.
  destruct (mkdtemp env (fs s)) as [d'|] eqn:Hmk; [|discriminate].
  injection Hm as -> <-.
  destruct ostrm as [strm|]; [|discriminate].
  unfold call_stream_download in Hdl.
  destruct (stream_download env strm d "audio.mp4") as [[]|] eqn:Hsd; [|discriminate].
  now exists strm, d.
Qed.

Lemma download_audio_raise_inv (url : string) (s s1 : State) (e : exn) :
  download_audio env url s = (Raise e, s1) →
  ∃ e0, e = Exception ("Error downloading audio: " +:+ str_exn e0).
Proof.
  unfold download_audio, try_except, raise.
  destruct (@mbind M _ _ _ _ _ s) as [[p|e0] s2]; [discriminate|].
  intros [= <- _]. now exists e0.
Qed.

Lemma transcribe_audio_raise_inv (path : string) (s s1 : State) (e : exn) :
  transcribe_audio env path s = (Raise e, s1) →
  ∃ e0, e = Exception ("Error transcribing audio: " +:+ str_exn e0).
Proof.
  unfold transcribe_audio, try_except, raise.
  destruct (call_whisper env path s) as [[p|e0] s2]; [discriminate|].
  intros [= <- _]. now exists e0.
Qed.

(** The download calls the download library and [mkdtemp] only. *)
Lemma appends_download_only (url : string) :
  appends is_download_call (download_audio env url).
Proof.
  apply appends_try; [|intros; apply appends_raise].
  apply appends_bind; [now apply appends_external|]. intros strm.
  apply appends_bind.
  { apply (appends_one _ _ CallMkdtemp); [exact I|].
    intros s. unfold call_mkdtemp. destruct (mkdtemp env (fs s)); reflexivity. }
  intros d. apply appends_bind; [|intros; apply appends_mret].
  destruct strm as [strm|]; [|apply appends_raise].
  apply (appends_one _ _ (CallStreamDownload strm d "audio.mp4")); [exact I|].
  intros s. unfold call_stream_download.
  destruct (stream_download env strm d "audio.mp4"); reflexivity.
Qed.

End AudioSteps.

Section AudioProperties.
Variable env : Services.

(** X4.  A download that returns has made exactly three calls (the stream
    request, [mkdtemp], the download), returns the path of [audio.mp4]
    inside the directory [mkdtemp] named, and has added that directory and
    that file, and nothing else, to the file system. *)
Theorem download_audio_creates (url : string) (s s1 : State) (path : string) :
  download_audio env url s = (Ok path, s1) →
  ∃ strm d,
    mkdtemp env (fs s) = Ok d ∧
    path = os_path_join d "audio.mp4" ∧
    fs s1 = <[path := File]> (<[d := Dir]> (fs s)) ∧
    fs s1 !! path = Some File ∧
    fs s1 !! d = Some Dir ∧
    calls s1 = calls s ++ [CallYouTube url; CallMkdtemp; CallStreamDownload strm d "audio.mp4"].
Proof.
  intros H. destruct (download_audio_inv env _ _ _ _ H) as (strm & d & Hs & Hm & Hd & ->).
  rewrite (download_audio_ok env url s strm d Hs Hm Hd) in H. injection H as <-.
  exists strm, d. cbn [fs calls set_fs log_call].
  split; [exact Hm|]. split; [reflexivity|]. split; [reflexivity|].
  split; [apply lookup_insert_eq|]. split.
  - rewrite lookup_insert_ne; [apply lookup_insert_eq|].
    apply PathFacts.join_not_left; [discriminate | reflexivity].
  - now rewrite <- !app_assoc.
Qed.

(** X5.  A download that fails after [mkdtemp] has run (no audio stream
    was found, or the transfer raised) raises an exception whose message
    starts with "Error downloading audio: ", and the temporary directory it
    created is still there: [download_audio] never removes it. *)
Theorem download_failure_leaves_directory (url : string) (s : State)
    (found : option Stream) (d : string) :
  first_audio_stream env url = Ok found →
  mkdtemp env (fs s) = Ok d →
  found = None ∨
  (∃ strm e, found = Some strm ∧ stream_download env strm d "audio.mp4" = Raise e) →
  (∃ e, (download_audio env url s).1
        = Raise (Exception ("Error downloading audio: " +:+ str_exn e))) ∧
  fs (download_audio env url s).2 = <[d := Dir]> (fs s).
Proof.
  intros Hs Hm Hfail.
  assert (Hbody : ∃ e s1 strm_calls,
    download_audio env url s
    = (Raise (Exception ("Error downloading audio: " +:+ str_exn e)), s1) ∧
    s1 = strm_calls (set_fs (insert d Dir) (log_call CallMkdtemp (log_call (CallYouTube url) s))) ∧
    ∀ s', fs (strm_calls s') = fs s').
  { destruct Hfail as [-> | (strm & e & -> & Hd)].
    - eexists (AttributeError "'NoneType' object has no attribute 'download'"), _, (λ s', s').
      split; [|easy]. unfold download_audio.
      erewrite (try_raise _ _ _ _ (AttributeError _)); [reflexivity|].
      erewrite bind_ok; [|unfold call_first_audio_stream, external; now rewrite Hs].
      erewrite bind_ok; [|unfold call_mkdtemp; cbn [fs log_call]; now rewrite Hm].
      apply bind_raise. reflexivity.
    - eexists e, _, (log_call (CallStreamDownload strm d "audio.mp4")).
      split; [|easy]. unfold download_audio.
      erewrite (try_raise _ _ _ _ e); [reflexivity|].
      erewrite bind_ok; [|unfold call_first_audio_stream, external; now rewrite Hs].
      erewrite bind_ok; [|unfold call_mkdtemp; cbn [fs log_call]; now rewrite Hm].
      apply bind_raise. unfold call_stream_download. now rewrite Hd. }
  destruct Hbody as (e & s1 & k & -> & -> & Hk).
  split; [now exists e|]. cbn [snd]. now rewrite Hk.
Qed.

(** X6.  The fallback on a machine that lets it clean up: when the download
    and the transcription succeed, the temporary directory is a new, normal
    one and the file and the directory may be removed, the fallback returns
    the transcribed text and leaves the file system exactly as it found it;
    its six calls are the stream request, [mkdtemp], the download, the
    transcription, [os.remove] and [os.rmdir]. *)
Theorem fallback_leaves_no_trace (url : string) (s : State)
    (strm : Stream) (d txt : string) :
  let path := os_path_join d "audio.mp4" in
  first_audio_stream env url = Ok (Some strm) →
  mkdtemp env (fs s) = Ok d →
  stream_download env strm d "audio.mp4" = Ok () →
  whisper_transcribe env path = Ok txt →
  os_denied env path = false →
  os_denied env d = false →
  PyStr.endswith_slash d = false →
  os_path_dirname d ≠ d →
  fs s !! d = None →
  map_Forall (λ p _, os_path_dirname p ≠ d) (fs s) →
  (speech_to_text_fallback env url s).1
  = Ok {| text := txt; original_language := "auto-detected" |} ∧
  fs (speech_to_text_fallback env url s).2 = fs s ∧
  calls (speech_to_text_fallback env url s).2
  = calls s ++ [CallYouTube url; CallMkdtemp; CallStreamDownload strm d "audio.mp4";
                CallWhisper path; CallRemove path; CallRmdir d].
Proof.
  intros path Hs Hm Hd Hw Hdp Hdd Hslash Hself Hfresh Hempty.
  assert (Hdir : os_path_dirname path = d) by (now apply PathFacts.dirname_join).
  assert (Hne : path ≠ d) by (apply PathFacts.join_not_left; [discriminate | reflexivity]).
  assert (Hnot : fs s !! path = None).
  { destruct (fs s !! path) as [k|] eqn:E; [|reflexivity].
    now destruct (Hempty path k E). }
  unfold speech_to_text_fallback.
  erewrite bind_ok; [|reflexivity].
  erewrite bind_ok; [|now apply (download_audio_ok env url _ strm d)].
  fold path.
  erewrite bind_ok;
    [|unfold transcribe_audio, call_whisper, external; apply try_ok; now rewrite Hw].
  erewrite bind_ok.
  2:{ apply try_ok. erewrite bind_ok.
      2:{ apply os_remove_ok; [|exact Hdp].
          cbn [fs set_fs log_call show]. apply lookup_insert_eq. }
      rewrite Hdir. apply os_rmdir_ok.
      - cbn [fs set_fs log_call show].
        rewrite lookup_delete_ne, lookup_insert_ne by congruence.
        apply lookup_insert_eq.
      - exact Hdd.
      - cbn [fs set_fs log_call show].
        rewrite delete_insert_id by (now rewrite lookup_insert_ne by congruence).
        apply map_Forall_insert_2; [exact Hself | exact Hempty]. }
  cbn [fst snd fs calls set_fs log_call show mret M_ret].
  split; [reflexivity|]. split.
  - rewrite delete_insert_id.
    + rewrite delete_insert_id; [reflexivity | exact Hfresh].
    + rewrite lookup_insert_ne by congruence. exact Hnot.
  - now rewrite <- !app_assoc.
Qed.

(** X7.  When the operating system refuses to remove the audio file, the
    fallback still returns the transcribed text; [os.rmdir] is not
    attempted, and the file and the directory stay. *)
Theorem failed_removal_skips_rmdir (url : string) (s : State)
    (strm : Stream) (d txt : string) :
  let path := os_path_join d "audio.mp4" in
  first_audio_stream env url = Ok (Some strm) →
  mkdtemp env (fs s) = Ok d →
  stream_download env strm d "audio.mp4" = Ok () →
  whisper_transcribe env path = Ok txt →
  os_denied env path = true →
  (speech_to_text_fallback env url s).1
  = Ok {| text := txt; original_language := "auto-detected" |} ∧
  fs (speech_to_text_fallback env url s).2 = <[path := File]> (<[d := Dir]> (fs s)) ∧
  calls (speech_to_text_fallback env url s).2
  = calls s ++ [CallYouTube url; CallMkdtemp; CallStreamDownload strm d "audio.mp4";
                CallWhisper path; CallRemove path].
Proof.
  intros path Hs Hm Hd Hw Hdp.
  unfold speech_to_text_fallback.
  erewrite bind_ok; [|reflexivity].
  erewrite bind_ok; [|now apply (download_audio_ok env url _ strm d)].
  fold path.
  erewrite bind_ok;
    [|unfold transcribe_audio, call_whisper, external; apply try_ok; now rewrite Hw].
  erewrite bind_ok.
  2:{ erewrite (try_raise _ _ _ _ (OSError "Permission denied")); [reflexivity|].
      apply bind_raise. apply os_remove_denied; [|exact Hdp].
      cbn [fs set_fs log_call show]. apply lookup_insert_eq. }
  cbn [fst snd fs calls set_fs log_call show mret M_ret].
  split; [reflexivity|]. split; [reflexivity|]. now rewrite <- !app_assoc.
Qed.

(** The fallback raises only from the download or from the transcription. *)
Lemma speech_to_text_fallback_raise_inv (url : string) (s s1 : State) (e : exn) :
  speech_to_text_fallback env url s = (Raise e, s1) →
  download_audio env url (show stt_warning s) = (Raise e, s1) ∨
  ∃ path s2, download_audio env url (show stt_warning s) = (Ok path, s2) ∧
             transcribe_audio env path s2 = (Raise e, s1).
Proof.
  intros H. unfold speech_to_text_fallback in H.
  erewrite bind_ok in H; [|reflexivity].
  destruct (download_audio env url (show stt_warning s)) as [[path|e'] s2] eqn:Ed.
  - erewrite bind_ok in H; [|exact Ed].
    destruct (transcribe_audio env path s2) as [[txt|e'] s3] eqn:Et.
    + erewrite bind_ok in H; [|exact Et].
      destruct (cleanup_swallowed env path s3) as (s4 & Hc).
      erewrite bind_ok in H; [|exact Hc]. discriminate.
    + erewrite bind_raise in H; [|exact Et]. injection H as <- <-. right. eauto.
  - erewrite bind_raise in H; [|exact Ed]. left. congruence.
Qed.

(** X8.  On the audio path [get_transcript] fails in two ways only: with
    "Error downloading audio: ...", and then speech-to-text was never
    called, or with "Error transcribing audio: ...".  The clean-up cannot
    make it fail. *)
Theorem audio_path_failures (url target : string) (s s1 : State)
    (vid : string) (tl : TranscriptList) (e1 e2 e : exn) :
  getitem (PyStr.split "v=" url) 1 = Ok vid →
  list_transcripts env vid = Ok tl →
  find_manually_created_transcript env tl supported_languages = Raise e1 →
  find_generated_transcript env tl supported_languages = Raise e2 →
  get_transcript env url target s = (Raise e, s1) →
  (∃ e0, e = Exception ("Error downloading audio: " +:+ str_exn e0) ∧
         ∀ path, CallWhisper path ∉ calls s → CallWhisper path ∉ calls s1) ∨
  (∃ e0, e = Exception ("Error transcribing audio: " +:+ str_exn e0)).
Proof.
  intros Hv Hl Hm Hg.
  rewrite (get_transcript_unfold env url target s vid tl Hv Hl).
  rewrite (find_transcript_fallback env url tl e1 e2 _ Hm Hg).
  set (s0 := log_call _ (log_call _ (log_call _ s))).
  unfold mbind, M_bind, mret, M_ret.
  destruct (speech_to_text_fallback env url s0) as [[r|e'] s2] eqn:Hstt; [discriminate|].
  intros [= <- <-].
  apply speech_to_text_fallback_raise_inv in Hstt as [Hd | (path & s3 & _ & Ht)].
  - left. destruct (download_audio_raise_inv env _ _ _ _ Hd) as [e0 ->].
    exists e0. split; [reflexivity|]. intros path Hnot Hin.
    destruct (appends_download_only env url (show stt_warning s0)) as (tail & E & F).
    rewrite Hd in E. cbn [snd calls show] in E, Hin. rewrite E in Hin.
    apply elem_of_app in Hin as [Hin|Hin].
    + subst s0. cbn [calls log_call] in Hin.
      repeat (apply elem_of_app in Hin as [Hin|Hin];
              [|apply list_elem_of_singleton in Hin; discriminate]).
      contradiction.
    + rewrite Forall_forall in F. exact (F _ Hin).
  - right. apply (transcribe_audio_raise_inv env _ _ _ _ Ht).
Qed.

End AudioProperties.

(* ===================================================================== *)
(** * What a computation leaves alone                                     *)
(* ===================================================================== *)

Section Preserves.
Context {X : Type} (f : State → X).
Hypothesis f_log : ∀ c s, f (log_call c s) = f s.
Hypothesis f_show : ∀ e s, f (show e s) = f s.
Hypothesis f_fs : ∀ g s, f (set_fs g s) = f s.

Lemma preserves_bind {A B : Type} (m : M A) (k : A → M B) :
  preserves f m → (∀ a, preserves f (k a)) → preserves f (m ≫= k).
Proof.
  intros Hm Hk s. specialize (Hm s). unfold mbind, M_bind.
  destruct (m s) as [[a|e] s1]; cbn [snd] in *; [|exact Hm].
  now rewrite (Hk a s1).
Qed.

Lemma preserves_try {A : Type} (m : M A) (h : exn → M A) :
  preserves f m → (∀ e, preserves f (h e)) → preserves f (try_except m h).
Proof.
  intros Hm Hh s. specialize (Hm s). unfold try_except.
  destruct (m s) as [[a|e] s1]; cbn [snd] in *; [exact Hm|].
  now rewrite (Hh e s1).
Qed.

Lemma preserves_mret {A : Type} (a : A) : preserves f (mret a : M A).
Proof. easy. Qed.

Lemma preserves_raise {A : Type} (e : exn) : preserves f (raise e : M A).
Proof. easy. Qed.

Lemma preserves_lift {A : Type} (r : result A) : preserves f (lift r).
Proof. easy. Qed.

Lemma preserves_st (e : element) : preserves f (st e).
Proof. intros s. apply f_show. Qed.

Lemma preserves_external {A : Type} (c : call) (r : result A) : preserves f (external c r).
Proof. intros s. apply f_log. Qed.

Variable env : Services.

Lemma preserves_speech_to_text_fallback (url : string) :
  preserves f (speech_to_text_fallback env url).
Proof.
  apply preserves_bind; [apply preserves_st|]. intros _.
  apply preserves_bind.
  { apply preserves_try; [|intros; apply preserves_raise].
    apply preserves_bind; [apply preserves_external|]. intros strm.
    apply preserves_bind.
    { intros s. unfold call_mkdtemp. destruct (mkdtemp env (fs s)); cbn [snd];
        now rewrite ?f_fs, f_log. }
    intros d. apply preserves_bind; [|intros; apply preserves_mret].
    destruct strm as [strm|]; [|apply preserves_raise].
    intros s. unfold call_stream_download.
    destruct (stream_download env strm d "audio.mp4"); cbn [snd]; now rewrite ?f_fs, f_log. }
  intros path. apply preserves_bind.
  { apply preserves_try; [apply preserves_external | intros; apply preserves_raise]. }
  intros txt. apply preserves_bind; [|intros; apply preserves_mret].
  apply preserves_try; [|intros; apply preserves_mret].
  apply preserves_bind.
  - intros s. unfold os_remove.
    destruct (fs s !! path) as [[]|]; [destruct (os_denied env path)| |]; cbn [snd];
      now rewrite ?f_fs, f_log.
  - intros _ s. unfold os_rmdir.
    destruct (fs s !! _) as [[]|]; [|destruct (os_denied env _); [|case_bool_decide]|];
      cbn [snd]; now rewrite ?f_fs, f_log.
Qed.

Lemma preserves_get_transcript (url target : string) :
  preserves f (get_transcript env url target).
Proof.
  apply preserves_try.
  2:{ intros e. apply preserves_bind; [apply preserves_st | intros; apply preserves_raise]. }
  apply preserves_bind; [apply preserves_lift|]. intros vid.
  apply preserves_bind; [apply preserves_external|]. intros tl.
  apply preserves_bind.
  { apply preserves_try.
    { apply preserves_bind; [apply preserves_external | intros; apply preserves_mret]. }
    intros _. apply preserves_try.
    { apply preserves_bind; [apply preserves_external | intros; apply preserves_mret]. }
    intros _. apply preserves_bind; [|intros; apply preserves_mret].
    apply preserves_speech_to_text_fallback. }
  intros [[t l]|r]; [|apply preserves_mret].
  apply preserves_bind.
  { destruct (decide (target ≠ l)); [apply preserves_external | apply preserves_mret]. }
  intros t'. apply preserves_bind; [apply preserves_external | intros; apply preserves_mret].
Qed.

Lemma preserves_ask_action (url question : string) :
  preserves f (ask_action env url question).
Proof.
  apply preserves_try; [|intros; apply preserves_st].
  apply preserves_bind; [apply preserves_get_transcript|]. intros d.
  apply preserves_bind; [apply preserves_external | intros; apply preserves_st].
Qed.

End Preserves.

(* ===================================================================== *)
(** * More about the resolver                                             *)
(* ===================================================================== *)

Section ResolverProperties.
Variable env : Services.

Lemma get_transcript_list_raise (url target : string) (s : State) (vid : string) (e : exn) :
  getitem (PyStr.split "v=" url) 1 = Ok vid →
  list_transcripts env vid = Raise e →
  get_transcript env url target s
  = (Raise e, show error_banner (log_call (CallListTranscripts vid) s)).
Proof.
  intros Hv Hl. unfold get_transcript.
  erewrite (try_raise _ _ _ _ e); [reflexivity|].
  erewrite bind_ok; [|unfold lift; now rewrite Hv].
  apply bind_raise. unfold call_list_transcripts, external. now rewrite Hl.
Qed.

(** The first call of [get_transcript] is the listing for the piece of the
    URL after the first [v=]. *)
Lemma get_transcript_first_call (url target : string) (s : State) (vid : string) :
  getitem (PyStr.split "v=" url) 1 = Ok vid →
  ∃ tail, calls (get_transcript env url target s).2
          = calls s ++ CallListTranscripts vid :: tail.
Proof.
  intros Hv. destruct (list_transcripts env vid) as [tl|e] eqn:Hl.
  2:{ rewrite (get_transcript_list_raise url target s vid e Hv Hl). now exists []. }
  rewrite (get_transcript_unfold env url target s vid tl Hv Hl).
  destruct (appends_find_transcript env target url tl (log_call (CallListTranscripts vid) s))
    as (t1 & E1 & _).
  destruct (find_transcript env url tl _) as [[[[t lang]|r]|e] s1]; cbn [snd] in *.
  - destruct (appends_fetch_text env target t lang s1) as (t2 & E2 & _).
    rewrite calls_report, E2, E1. cbn [calls log_call]. exists (t1 ++ t2).
    now rewrite <- !app_assoc.
  - rewrite E1. cbn [calls log_call]. exists t1. now rewrite <- !app_assoc.
  - cbn [calls show]. rewrite E1. cbn [calls log_call]. exists t1. now rewrite <- !app_assoc.
Qed.

(** X9.  When the listing of the tracks raises, [get_transcript] raises the
    same exception after that one call: neither look-up is made and the
    audio path is not tried. *)
Theorem listing_failure_is_final (url target : string) (s : State) (vid : string) (e : exn) :
  getitem (PyStr.split "v=" url) 1 = Ok vid →
  list_transcripts env vid = Raise e →
  (get_transcript env url target s).1 = Raise e ∧
  calls (get_transcript env url target s).2 = calls s ++ [CallListTranscripts vid] ∧
  fs (get_transcript env url target s).2 = fs s.
Proof.
  intros Hv Hl. now rewrite (get_transcript_list_raise url target s vid e Hv Hl).
Qed.

(** X10.  The page and the resolver do not cut the same identifier out of
    a long-form URL with further parameters: the page's extractor stops at
    the ampersand and returns [id], while [get_transcript] asks the caption
    service for [id & rest], the whole remainder of the URL. *)
Theorem resolver_id_keeps_query (p ident r target : string) (s : State) :
  let url := p +:+ "youtube.com/watch?v=" +:+ ident +:+ "&" +:+ r in
  PyStr.contains "youtu.be" url = false →
  PyStr.contains "v=" p = false →
  PyStr.contains "v=" ident = false →
  PyStr.contains "&" ident = false →
  PyStr.contains "v=" r = false →
  extract_video_id url = Ok ident ∧
  ∃ tail, calls (get_transcript env url target s).2
          = calls s ++ CallListTranscripts (ident +:+ "&" +:+ r) :: tail.
Proof.
  intros url Hshort Hp Hid Hamp Hr.
  split; [now apply Extractor.extract_long_form|].
  apply get_transcript_first_call. unfold PyStr.split.
  assert (Hc : PyStr.contains "v=" ((p +:+ "youtube.com/watch?") +:+ "v") = false).
  { rewrite PyStrFacts.append_assoc.
    apply (PyStrFacts.contains_append_no_last "v" "=" p "youtube.com/watch?v" Hp eq_refl). }
  pose proof (PyStrFacts.split_from_first "v" "=" (p +:+ "youtube.com/watch?")
                (ident +:+ "&" +:+ r) "" Hc) as Hf.
  change ("v" +:+ String "="%char "") with "v=" in Hf.
  rewrite PyStrFacts.append_assoc in Hf.
  change ("youtube.com/watch?" +:+ "v=" +:+ ident +:+ "&" +:+ r)
    with ("youtube.com/watch?v=" +:+ ident +:+ "&" +:+ r) in Hf.
  fold url in Hf. rewrite Hf.
  rewrite PyStrFacts.split_from_absent.
  - reflexivity.
  - change ("&" +:+ r) with (String "&"%char r).
    now apply ExtractorFacts.contains_append_blocked.
Qed.

End ResolverProperties.

(* ===================================================================== *)
(** * More about the page                                                 *)
(* ===================================================================== *)

Section PageProperties.
Variable env : Services.

Lemma show_all_show (l : list element) (e : element) (s : State) :
  show e (show_all l s) = show_all (l ++ [e]) s.
Proof. unfold show, show_all. cbn. now rewrite <- app_assoc. Qed.

Lemma show_all_show_all (l1 l2 : list element) (s : State) :
  show_all l2 (show_all l1 s) = show_all (l1 ++ l2) s.
Proof. unfold show_all. cbn. now rewrite <- app_assoc. Qed.

Lemma show_as_show_all (e : element) (s : State) : show e s = show_all [e] s.
Proof. reflexivity. Qed.

Lemma show_all_nil (s : State) : show_all [] s = s.
Proof. destruct s. unfold show_all. cbn. now rewrite app_nil_r. Qed.

(** A handler that shows something turns every outcome into a return. *)
Lemma try_except_returns (m : M unit) (h : exn → M unit) (s : State) :
  (∀ e s', (h e s').1 = Ok ()) → (try_except m h s).1 = Ok ().
Proof.
  intros Hh. unfold try_except. destruct (m s) as [[[]|e] s1]; [reflexivity | apply Hh].
Qed.

(** X11.  No exception leaves the page: the three button actions and a
    whole run of the script always return, whatever the services do. *)
Theorem script_never_raises (w : Widgets) (url question lang : string) (s : State) :
  (summary_action env url s).1 = Ok () ∧
  (ask_action env url question s).1 = Ok () ∧
  (transcript_action env url lang s).1 = Ok () ∧
  (script env w s).1 = Ok ().
Proof.
  split; [|split; [|split]].
  - apply try_except_returns. reflexivity.
  - apply try_except_returns. reflexivity.
  - apply try_except_returns. reflexivity.
  - unfold script. erewrite bind_ok; [|reflexivity].
    case_bool_decide; [reflexivity|].
    apply try_except_returns. intros []; reflexivity.
Qed.

(** The resolver through the memo, on a URL without [v=] and with no entry. *)
Lemma get_cached_transcript_no_v (url lang : string) (s : State) :
  transcript_cache s !! (url, lang) = None →
  PyStr.contains "v=" url = false →
  get_cached_transcript env url lang s = (Raise IndexError, show error_banner s).
Proof.
  intros Hc Hv. unfold get_cached_transcript, cache_data.
  now rewrite Hc, (get_transcript_no_v env url lang s Hv).
Qed.

Lemma summary_action_no_v (b : bool) (url : string) (l : list element) (s : State) :
  transcript_cache s !! (url, "en") = None →
  PyStr.contains "v=" url = false →
  when b (summary_action env url) (show_all l s)
  = (Ok (), show_all
              (l ++ if b
                    then [error_banner;
                          logger_error ("Error in summary generation: " +:+ str_exn IndexError);
                          st_error "An error occurred while generating the summary. Please try again."]
                    else []) s).
Proof.
  intros Hc Hv. destruct b; cbn [when].
  - unfold summary_action.
    erewrite (try_raise _ _ _ _ IndexError).
    2:{ apply bind_raise. now apply get_cached_transcript_no_v. }
    erewrite bind_ok; [|reflexivity].
    unfold st. now rewrite !show_as_show_all, !show_all_show_all, <- ?app_assoc.
  - now rewrite app_nil_r.
Qed.

Lemma ask_action_no_v (b : bool) (url question : string) (l : list element) (s : State) :
  PyStr.contains "v=" url = false →
  when b (ask_action env url question) (show_all l s)
  = (Ok (), show_all
              (l ++ if b
                    then [error_banner; st_error ("An error occurred: " +:+ str_exn IndexError)]
                    else []) s).
Proof.
  intros Hv. destruct b; cbn [when].
  - unfold ask_action.
    erewrite (try_raise _ _ _ _ IndexError).
    2:{ apply bind_raise. now apply get_transcript_no_v. }
    unfold st. now rewrite !show_as_show_all, !show_all_show_all, <- ?app_assoc.
  - now rewrite app_nil_r.
Qed.

Lemma transcript_action_no_v (b : bool) (url lang : string) (l : list element) (s : State) :
  transcript_cache s !! (url, lang) = None →
  PyStr.contains "v=" url = false →
  when b (transcript_action env url lang) (show_all l s)
  = (Ok (), show_all
              (l ++ if b
                    then [error_banner;
                          st_error ("An error occurred while fetching transcript: "
                                    +:+ str_exn IndexError)]
                    else []) s).
Proof.
  intros Hc Hv. destruct b; cbn [when].
  - unfold transcript_action.
    erewrite (try_raise _ _ _ _ IndexError).
    2:{ apply bind_raise. now apply get_cached_transcript_no_v. }
    unfold st. now rewrite !show_as_show_all, !show_all_show_all, <- ?app_assoc.
  - now rewrite app_nil_r.
Qed.

(** X12.  A URL the page accepts but that has no [v=] (the short form):
    the player is shown, and every button that is pressed ends in its error
    banner.  No service is called, nothing is memoised and the file system
    is not touched; the run shows exactly [failed_page]. *)
Theorem short_url_every_action_fails (w : Widgets) (vid : string) (s : State) :
  extract_video_id (url_input w) = Ok vid →
  PyStr.contains "v=" (url_input w) = false →
  transcript_cache s !! (url_input w, "en") = None →
  transcript_cache s !! (url_input w, target_language w) = None →
  script env w s = (Ok (), show_all (failed_page w vid IndexError) s).
Proof.
  intros Hex Hv Hen Hlang.
  assert (Hurl : url_input w ≠ "") by (intros E; rewrite E in Hex; discriminate).
  unfold script.
  erewrite bind_ok; [|reflexivity].
  rewrite bool_decide_eq_false_2 by exact Hurl.
  apply try_ok.
  erewrite bind_ok; [|unfold lift; now rewrite Hex].
  erewrite bind_ok; [|reflexivity].
  erewrite bind_ok; [|reflexivity].
  unfold st. rewrite !show_as_show_all, !show_all_show_all.
  erewrite bind_ok; [|now apply summary_action_no_v].
  erewrite bind_ok; [|reflexivity].
  rewrite show_as_show_all, show_all_show_all.
  erewrite bind_ok; [|now apply ask_action_no_v].
  rewrite transcript_action_no_v by assumption.
  unfold failed_page. now rewrite <- ?app_assoc.
Qed.

(** X13.  A URL with neither marker is refused before any button is looked
    at: whatever is pressed, the run shows the title and "An unexpected
    error occurred: Invalid YouTube URL format" and does nothing else. *)
Theorem unsupported_url_reported (w : Widgets) (s : State) :
  url_input w ≠ "" →
  PyStr.contains "youtu.be" (url_input w) = false →
  PyStr.contains "youtube.com" (url_input w) = false →
  script env w s
  = (Ok (), show_all [st_title "YouTube Video Summarizer";
                      st_error "An unexpected error occurred: Invalid YouTube URL format"] s).
Proof.
  intros Hurl H1 H2. unfold script.
  erewrite bind_ok; [|reflexivity].
  rewrite bool_decide_eq_false_2 by exact Hurl.
  erewrite (try_raise _ _ _ _ (ValueError "Invalid YouTube URL format")).
  2:{ apply bind_raise. unfold lift.
      now rewrite (Extractor.extract_no_marker _ H1 H2). }
  unfold st. now rewrite !show_as_show_all, !show_all_show_all.
Qed.

(** X14.  A run in which no button takes effect ("Generate Summary" and
    "Get Transcript" not pressed, "Ask AI" not pressed or its question
    empty) calls no service and changes neither the memo tables nor the
    file system, whatever the URL is. *)
Theorem idle_run_calls_nothing (w : Widgets) (s : State) :
  summary_btn w = false →
  transcript_btn w = false →
  ask_btn w = false ∨ user_question w = "" →
  let s1 := (script env w s).2 in
  calls s1 = calls s ∧ fs s1 = fs s ∧
  transcript_cache s1 = transcript_cache s ∧ summary_cache s1 = summary_cache s.
Proof.
  intros Hs Ht Ha s1. subst s1.
  assert (Hask : negb (bool_decide (user_question w = "")) && ask_btn w = false).
  { destruct Ha as [-> | ->]; [apply andb_false_r | reflexivity]. }
  unfold script. rewrite Hs, Ht, Hask. cbn [when].
  unfold mbind, M_bind, try_except, lift, st, mret, M_ret.
  destruct (bool_decide (url_input w = "")); [repeat split; reflexivity|].
  destruct (extract_video_id (url_input w)) as [vid|[]]; repeat split; reflexivity.
Qed.

(** X15.  "Ask AI" goes past the memo: whatever the table of transcripts
    holds, it starts with a new listing request to the caption service, and
    it leaves both memo tables as they were. *)
Theorem ask_action_ignores_memo (url question vid : string) (s : State) :
  getitem (PyStr.split "v=" url) 1 = Ok vid →
  (∃ tail, calls (ask_action env url question s).2
           = calls s ++ CallListTranscripts vid :: tail) ∧
  transcript_cache (ask_action env url question s).2 = transcript_cache s ∧
  summary_cache (ask_action env url question s).2 = summary_cache s.
Proof.
  intros Hv. split; [|split].
  - destruct (get_transcript_first_call env url "en" s vid Hv) as (t1 & E1).
    unfold ask_action, try_except, st.
    unfold mbind at 1, M_bind.
    destruct (get_transcript env url "en" s) as [[d|e] s1]; cbn [snd] in *.
    + unfold call_chat_completion, external, mbind, M_bind.
      destruct (chat_completions_create env _); cbn [snd calls show log_call];
        rewrite E1; [exists (t1 ++ [CallChatCompletion
          {| messages := [("user", "Based on this video transcript: " +:+ text d +:+ nl +:+ nl +:+
                                   "Question: " +:+ question +:+ nl +:+ nl +:+ "Answer:")];
             model := "llama-3.3-70b-versatile"; temperature := None; max_tokens := None |}])
        | eexists]; now rewrite <- ?app_assoc.
    + cbn [calls show]. now exists t1.
  - now apply (preserves_ask_action transcript_cache).
  - now apply (preserves_ask_action summary_cache).
Qed.

End PageProperties.

(* ===================================================================== *)
(** * Start-up                                                            *)
(* ===================================================================== *)


Section SummaryProperties.
Variable env : Services.

(** X18.  When the transcript is there and the completion service raises,
    "Generate Summary" makes its one completion call, logs the cause twice
    (once in [generate_cached_summary], once in the button's handler) and
    shows only the general banner: the cause is not shown to the user. *)
Theorem summary_failure_hides_cause (url : string) (s s1 : State)
    (d : TranscriptResult) (e : exn) :
  get_cached_transcript env url "en" s = (Ok d, s1) →
  summary_cache s1 !! text d = None →
  (∀ req, chat_completions_create env req = Raise e) →
  screen (summary_action env url s).2
  = screen s1 ++
    [logger_error ("Error generating summary: " +:+ str_exn e);
     logger_error ("Error in summary generation: " +:+ str_exn e);
     st_error "An error occurred while generating the summary. Please try again."] ∧
  (∃ req, calls (summary_action env url s).2 = calls s1 ++ [CallChatCompletion req]) ∧
  (summary_action env url s).1 = Ok ().
Proof.
  intros Ht Hc Hdown. unfold summary_action.
  erewrite (try_raise _ _ _ _ e).
  2:{ erewrite bind_ok; [|exact Ht]. apply bind_raise.
      unfold generate_cached_summary, cache_data. rewrite Hc.
      unfold try_except, call_chat_completion, external. rewrite Hdown.
      unfold mbind, M_bind, st, raise. reflexivity. }
  unfold mbind, M_bind, st. cbn [fst snd screen calls show log_call].
  split; [now rewrite <- !app_assoc|]. split; [eauto | reflexivity].
Qed.

End SummaryProperties.

(* ===================================================================== *)
(** * The further properties at concrete inputs                           *)
(* ===================================================================== *)

Lemma extracted_id_has_no_delimiter_witness :
  PyStr.contains "?" "abc123" = false.
Proof.
  exact (proj1 (extracted_id_has_no_delimiter short_url "abc123" eq_refl) eq_refl).
Defined.

Lemma dirname_of_join_witness :
  os_path_dirname (os_path_join "/tmp/tmp0" "audio.mp4") = "/tmp/tmp0".
Proof. exact (dirname_of_join "/tmp/tmp0" "audio.mp4" eq_refl eq_refl). Defined.

Lemma download_audio_creates_witness :
  let s1 := (download_audio no_captions long_url initial_state).2 in
  ∃ strm d,
    mkdtemp no_captions (fs initial_state) = Ok d ∧
    "/tmp/tmp0/audio.mp4" = os_path_join d "audio.mp4" ∧
    fs s1 = <["/tmp/tmp0/audio.mp4" := File]> (<[d := Dir]> (fs initial_state)) ∧
    fs s1 !! "/tmp/tmp0/audio.mp4" = Some File ∧
    fs s1 !! d = Some Dir ∧
    calls s1 = calls initial_state ++
               [CallYouTube long_url; CallMkdtemp; CallStreamDownload strm d "audio.mp4"].
Proof.
  intros s1.
  apply (download_audio_creates no_captions long_url initial_state s1 "/tmp/tmp0/audio.mp4").
  vm_compute. reflexivity.
Defined.

Lemma download_failure_leaves_directory_witness :
  (∃ e, (download_audio no_audio_stream long_url initial_state).1
        = Raise (Exception ("Error downloading audio: " +:+ str_exn e))) ∧
  fs (download_audio no_audio_stream long_url initial_state).2
  = <["/tmp/tmp0" := Dir]> (fs initial_state).
Proof.
  exact (download_failure_leaves_directory no_audio_stream long_url initial_state
           None "/tmp/tmp0" eq_refl eq_refl (or_introl eq_refl)).
Defined.

Lemma fallback_leaves_no_trace_witness :
  fs (speech_to_text_fallback no_captions long_url initial_state).2 = fs initial_state.
Proof.
  assert (Hself : os_path_dirname "/tmp/tmp0" ≠ "/tmp/tmp0") by (vm_compute; discriminate).
  exact (proj1 (proj2 (fallback_leaves_no_trace no_captions long_url initial_state
                         {| itag := 140; mime_type := "audio/mp4" |}
                         "/tmp/tmp0" "spoken words"
                         eq_refl eq_refl eq_refl eq_refl eq_refl eq_refl eq_refl
                         Hself eq_refl (map_Forall_empty _)))).
Defined.

Lemma failed_removal_skips_rmdir_witness :
  fs (speech_to_text_fallback removal_denied long_url initial_state).2
  = <[os_path_join "/tmp/tmp0" "audio.mp4" := File]> (<["/tmp/tmp0" := Dir]> (fs initial_state)).
Proof.
  exact (proj1 (proj2 (failed_removal_skips_rmdir removal_denied long_url initial_state
                         {| itag := 140; mime_type := "audio/mp4" |}
                         "/tmp/tmp0" "spoken words"
                         eq_refl eq_refl eq_refl eq_refl eq_refl))).
Defined.

Lemma audio_path_failures_witness :
  let s1 := (get_transcript no_captions_stt_fails long_url "en" initial_state).2 in
  (∃ e0, Exception "Error transcribing audio: ffmpeg failed"
         = Exception ("Error downloading audio: " +:+ str_exn e0) ∧
         ∀ path, CallWhisper path ∉ calls initial_state → CallWhisper path ∉ calls s1) ∨
  (∃ e0, Exception "Error transcribing audio: ffmpeg failed"
         = Exception ("Error transcribing audio: " +:+ str_exn e0)).
Proof.
  intros s1.
  apply (audio_path_failures no_captions_stt_fails long_url "en" initial_state s1
           "abc123" [] (LibraryError "NoTranscriptFound") (LibraryError "NoTranscriptFound")
           (Exception "Error transcribing audio: ffmpeg failed")
           eq_refl eq_refl eq_refl eq_refl).
  vm_compute. reflexivity.
Defined.

Lemma listing_failure_is_final_witness :
  (get_transcript listing_fails long_url "en" initial_state).1
  = Raise (LibraryError "VideoUnavailable") ∧
  calls (get_transcript listing_fails long_url "en" initial_state).2
  = calls initial_state ++ [CallListTranscripts "abc123"] ∧
  fs (get_transcript listing_fails long_url "en" initial_state).2 = fs initial_state.
Proof.
  exact (listing_failure_is_final listing_fails long_url "en" initial_state "abc123"
           (LibraryError "VideoUnavailable") eq_refl eq_refl).
Defined.

Lemma resolver_id_keeps_query_witness :
  extract_video_id ("https://www." +:+ "youtube.com/watch?v=" +:+ "abc123" +:+ "&" +:+ "t=5")
  = Ok "abc123" ∧
  ∃ tail, calls (get_transcript hello_world
                   ("https://www." +:+ "youtube.com/watch?v=" +:+ "abc123" +:+ "&" +:+ "t=5")
                   "en" initial_state).2
          = calls initial_state ++ CallListTranscripts ("abc123" +:+ "&" +:+ "t=5") :: tail.
Proof.
  exact (resolver_id_keeps_query hello_world "https://www." "abc123" "t=5" "en" initial_state
           eq_refl eq_refl eq_refl eq_refl eq_refl).
Defined.

Lemma short_url_every_action_fails_witness :
  script hello_world all_buttons initial_state
  = (Ok (), show_all (failed_page all_buttons "abc123" IndexError) initial_state).
Proof.
  exact (short_url_every_action_fails hello_world all_buttons "abc123" initial_state
           eq_refl eq_refl eq_refl eq_refl).
Defined.

Lemma unsupported_url_reported_witness :
  script hello_world other_site initial_state
  = (Ok (), show_all [st_title "YouTube Video Summarizer";
                      st_error "An unexpected error occurred: Invalid YouTube URL format"]
              initial_state).
Proof.
  assert (Hurl : url_input other_site ≠ "") by discriminate.
  exact (unsupported_url_reported hello_world other_site initial_state Hurl eq_refl eq_refl).
Defined.

Lemma idle_run_calls_nothing_witness :
  calls (script hello_world no_button initial_state).2 = calls initial_state.
Proof.
  exact (proj1 (idle_run_calls_nothing hello_world no_button initial_state
                  eq_refl eq_refl (or_intror eq_refl))).
Defined.

Lemma ask_action_ignores_memo_witness :
  transcript_cache (ask_action hello_world long_url "What is it about?" initial_state).2
  = transcript_cache initial_state.
Proof.
  exact (proj1 (proj2 (ask_action_ignores_memo hello_world long_url "What is it about?"
                         "abc123" initial_state eq_refl))).
Defined.

Lemma summary_failure_hides_cause_witness :
  (summary_action completion_down long_url initial_state).1 = Ok ().
Proof.
  assert (Hfirst : get_cached_transcript completion_down long_url "en" initial_state
                   = (Ok hello_world_result,
                      (get_cached_transcript completion_down long_url "en" initial_state).2))
    by (vm_compute; reflexivity).
  assert (Hmiss : summary_cache
                    (get_cached_transcript completion_down long_url "en" initial_state).2
                  !! text hello_world_result = None) by (vm_compute; reflexivity).
  exact (proj2 (proj2 (summary_failure_hides_cause completion_down long_url initial_state _
                         hello_world_result (LibraryError "Connection error.")
                         Hfirst Hmiss (λ _, eq_refl)))).
Defined.

(* ===================================================================== *)
(** * The outcome of each source                                          *)
(* ===================================================================== *)

Section SourceOutcomes.
Variable env : Services.

(** What [download_audio] returns or raises is decided by the three steps
    of the download, in their order. *)
Lemma download_audio_result (url : string) (s : State) :
  (download_audio env url s).1 = download_result env url (fs s).
Proof.
  unfold download_audio, download_result, download_error, try_except,
    call_first_audio_stream, call_mkdtemp, call_stream_download, external, raise.
  unfold mbind, M_bind, mret, M_ret. cbn [fs log_call].
  destruct (first_audio_stream env url) as [found|e]; [|reflexivity].
  destruct (mkdtemp env (fs s)) as [d|e]; [|reflexivity].
  destruct found as [strm|]; [|reflexivity].
  destruct (stream_download env strm d "audio.mp4") as [[]|e]; reflexivity.
Qed.

(** What the fallback returns or raises is decided by the download and by
    speech-to-text on the downloaded file; the clean-up has no part in it. *)
Lemma speech_to_text_fallback_result (url : string) (s : State) :
  (speech_to_text_fallback env url s).1 = audio_result env url (fs s).
Proof.
  unfold audio_result.
  change (fs s) with (fs (show stt_warning s)).
  rewrite <- (download_audio_result url (show stt_warning s)).
  unfold speech_to_text_fallback. erewrite bind_ok; [|reflexivity].
  destruct (download_audio env url (show stt_warning s)) as [[path|e] s1] eqn:Ed; cbn [fst].
  - erewrite bind_ok; [|exact Ed].
    destruct (whisper_transcribe env path) as [txt|e] eqn:Hw.
    + erewrite bind_ok;
        [|unfold transcribe_audio, call_whisper, external; apply try_ok; now rewrite Hw].
      destruct (cleanup_swallowed env path (log_call (CallWhisper path) s1)) as (s2 & Hc).
      erewrite bind_ok; [|exact Hc]. reflexivity.
    + erewrite bind_raise; [reflexivity|]. now apply transcribe_audio_raise.
  - erewrite bind_raise; [reflexivity | exact Ed].
Qed.

(** On the audio path the outcome of [get_transcript] is that of the
    fallback. *)
Lemma get_transcript_audio (url target : string) (s : State)
    (vid : string) (tl : TranscriptList) (e1 e2 : exn) :
  getitem (PyStr.split "v=" url) 1 = Ok vid →
  list_transcripts env vid = Ok tl →
  find_manually_created_transcript env tl supported_languages = Raise e1 →
  find_generated_transcript env tl supported_languages = Raise e2 →
  (get_transcript env url target s).1 = audio_result env url (fs s).
Proof.
  intros Hv Hl Hm Hg.
  rewrite (get_transcript_unfold env url target s vid tl Hv Hl).
  rewrite (find_transcript_fallback env url tl e1 e2 _ Hm Hg).
  set (s0 := log_call _ (log_call _ (log_call _ s))).
  change (fs s) with (fs s0). rewrite <- speech_to_text_fallback_result.
  unfold mbind, M_bind, mret, M_ret.
  now destruct (speech_to_text_fallback env url s0) as [[r|e] s2].
Qed.


Lemma audio_result_ok_inv (url : string) (files : gmap string node) (r : TranscriptResult) :
  audio_result env url files = Ok r →
  ∃ strm d,
    first_audio_stream env url = Ok (Some strm) ∧
    mkdtemp env files = Ok d ∧
    stream_download env strm d "audio.mp4" = Ok () ∧
    whisper_transcribe env (os_path_join d "audio.mp4") = Ok (text r) ∧
    original_language r = "auto-detected".
Proof.
  unfold audio_result, download_result.
  destruct (first_audio_stream env url) as [[strm|]|] eqn:Hs;
    destruct (mkdtemp env files) as [d|] eqn:Hd; try discriminate.
  destruct (stream_download env strm d "audio.mp4") as [[]|] eqn:Hdl; [|discriminate].
  destruct (whisper_transcribe env (os_path_join d "audio.mp4")) as [txt|] eqn:Hw;
    [|discriminate].
  intros [= <-]. exists strm, d. repeat split; first [assumption | reflexivity].
Qed.


(** C7, as amended.  A result that is returned comes from one of the three
    sources.  Either a track was found, by the manual look-up or, when that
    raised, by the generated one: then the text is the join, with single
    spaces, of the segments fetched for that track (for its translation when
    another language is asked for), the language is the code of the track,
    and the text is empty exactly when there is no segment or one empty
    segment.  Or both look-ups raised: then the text is what speech-to-text
    gave for the file the download wrote, whatever it is, under the sentinel
    language.  Nothing checks that the text is not empty. *)
Theorem text_is_the_joined_source (url target : string) (s s1 : State)
    (r : TranscriptResult) :
  get_transcript env url target s = (Ok r, s1) →
  ∃ vid tl,
    getitem (PyStr.split "v=" url) 1 = Ok vid ∧
    list_transcripts env vid = Ok tl ∧
    ((∃ t t' segs,
        (find_manually_created_transcript env tl supported_languages = Ok t ∨
         ∃ e, find_manually_created_transcript env tl supported_languages = Raise e ∧
              find_generated_transcript env tl supported_languages = Ok t) ∧
        translated env t target = Ok t' ∧
        fetch env t' = Ok segs ∧
        text r = PyStr.join " " (snippet_text <$> segs) ∧
        original_language r = language_code t ∧
        (text r = "" ↔ snippet_text <$> segs = [] ∨ snippet_text <$> segs = [""])) ∨
     (∃ e1 e2 strm d,
        find_manually_created_transcript env tl supported_languages = Raise e1 ∧
        find_generated_transcript env tl supported_languages = Raise e2 ∧
        first_audio_stream env url = Ok (Some strm) ∧
        mkdtemp env (fs s) = Ok d ∧
        stream_download env strm d "audio.mp4" = Ok () ∧
        whisper_transcribe env (os_path_join d "audio.mp4") = Ok (text r) ∧
        original_language r = "auto-detected")).
Proof.
  intros H.
  destruct (get_transcript_ok_inv env _ _ _ _ _ H) as (vid & tl & Hv & Hl & _).
  exists vid, tl. split; [exact Hv|]. split; [exact Hl|].
  assert (Hout : (get_transcript env url target s).1 = Ok r) by now rewrite H.
  assert (Hcap : ∀ t, caption_result env t target = Ok r →
     ∃ t' segs, translated env t target = Ok t' ∧ fetch env t' = Ok segs ∧
       text r = PyStr.join " " (snippet_text <$> segs) ∧
       original_language r = language_code t ∧
       (text r = "" ↔ snippet_text <$> segs = [] ∨ snippet_text <$> segs = [""])).
  { intros t Hr. apply caption_result_ok_inv in Hr as (Hlang & t' & segs & Ht & Hf & Htxt).
    exists t', segs. repeat split; try assumption; rewrite Htxt; apply join_empty_iff. }
  destruct (find_manually_created_transcript env tl supported_languages) as [t|e1] eqn:Hm.
  - left.
    destruct (get_transcript_captions env url target s vid tl t _ Hv Hl
                (find_transcript_manual env url tl t _ Hm)) as [Hr _].
    rewrite Hout in Hr. symmetry in Hr.
    destruct (Hcap t Hr) as (t' & segs & Hrest). exists t, t', segs. split; [now left | exact Hrest].
  - destruct (find_generated_transcript env tl supported_languages) as [t|e2] eqn:Hg.
    + left.
      destruct (get_transcript_captions env url target s vid tl t _ Hv Hl
                  (find_transcript_generated env url tl e1 t _ Hm Hg)) as [Hr _].
      rewrite Hout in Hr. symmetry in Hr.
      destruct (Hcap t Hr) as (t' & segs & Hrest). exists t, t', segs.
      split; [right; now exists e1 | exact Hrest].
    + right.
      pose proof (get_transcript_audio url target s vid tl e1 e2 Hv Hl Hm Hg) as Hr.
      rewrite Hout in Hr. symmetry in Hr.
      destruct (audio_result_ok_inv _ _ _ Hr) as (strm & d & Hs & Hd & Hdl & Hw & Hlang).
      now exists e1, e2, strm, d.
Qed.

End SourceOutcomes.

(* ===================================================================== *)
(** * The language each button resolves with                              *)
(* ===================================================================== *)

Section ButtonLanguages.
Variable env : Services.

Lemma cache_data_miss {K V : Type} `{Countable K}
    (get : State → gmap K (V * nat)) (set : gmap K (V * nat) → State → State)
    (key : K) (body : M V) (s : State) :
  fresh_entry (get s) key (now s) = None →
  cache_data get set key body s
  = match body s with
    | (Ok v, s') => (Ok v, set (<[key := (v, now s')]> (get s')) s')
    | (Raise e, s') => (Raise e, s')
    end.
Proof.
  unfold fresh_entry, cache_data.
  destruct (get s !! key) as [[v stored_at]|]; [|reflexivity].
  destruct (bool_decide (now s < stored_at + ttl)); [discriminate | reflexivity].
Qed.

Lemma cache_data_hit {K V : Type} `{Countable K}
    (get : State → gmap K (V * nat)) (set : gmap K (V * nat) → State → State)
    (key : K) (body : M V) (s : State) (v : V) :
  fresh_entry (get s) key (now s) = Some v →
  cache_data get set key body s = (Ok v, s).
Proof.
  unfold fresh_entry, cache_data.
  destruct (get s !! key) as [[v' stored_at]|]; [|discriminate].
  destruct (bool_decide (now s < stored_at + ttl)); [|discriminate].
  now intros [= ->].
Qed.

(** The memoised resolver, when the table has no fresh entry. *)
Lemma get_cached_transcript_miss (url lang : string) (s : State) :
  fresh_entry (transcript_cache s) (url, lang) (now s) = None →
  get_cached_transcript env url lang s
  = match get_transcript env url lang s with
    | (Ok d, s1) => (Ok d, remember (url, lang) d s1)
    | (Raise e, s1) => (Raise e, s1)
    end.
Proof. intros Hc. unfold get_cached_transcript. now rewrite cache_data_miss. Qed.

Lemma try_bind_ok {A B : Type} (m : M A) (k : A → M B) (h : exn → M B)
    (s s1 : State) (a : A) :
  m s = (Ok a, s1) → try_except (m ≫= k) h s = try_except (k a) h s1.
Proof. intros Hm. unfold try_except, mbind, M_bind. now rewrite Hm. Qed.

Lemma returns_unit (m : M unit) (s : State) : (m s).1 = Ok () → m s = (Ok (), (m s).2).
Proof. destruct (m s) as [r s1]. cbn. now intros ->. Qed.

Lemma summary_action_returns (url : string) (s : State) :
  summary_action env url s = (Ok (), (summary_action env url s).2).
Proof. apply returns_unit, try_except_returns. reflexivity. Qed.

(** C9.  "Generate Summary" resolves the transcript in English whatever
    the language selector says, and the selector reaches only "Get
    Transcript".

    - A run of the page in which "Get Transcript" is not pressed is the same
      run for every selection, and every translation it asks for is into
      English.
    - The action of "Generate Summary" takes the transcript from the
      resolver called with ['en']: when the memo table has no fresh entry
      for the URL and ['en'] it runs [get_transcript url 'en'], ends in the
      general banner when that raises, and otherwise stores the result under
      (URL, ['en']) and goes on to summarise its text; when the table has a
      fresh entry it summarises the text of that entry.
    - A run in which only "Generate Summary" is pressed is, for every
      selection, the player followed by that action and the heading of the
      chat tab.
    - The action of "Get Transcript" takes the transcript from the resolver
      called with the selected language, shows what it returned and stores
      it under (URL, selection); every translation it asks for is into the
      selected language. *)
Theorem summary_resolves_in_english (w : Widgets) (lang : string) (s : State) :
  let url := url_input w in
  let summarise (d : TranscriptResult) : M unit :=
    try_except
      (summary ← generate_cached_summary env (text d);
       st (st_markdown "### Summary");;
       st (st_write summary))
      (λ e,
        st (logger_error ("Error in summary generation: " +:+ str_exn e));;
        st (st_error "An error occurred while generating the summary. Please try again.")) in
  (transcript_btn w = false →
     script env (with_language lang w) s = script env w s ∧
     ∃ tail, calls (script env w s).2 = calls s ++ tail ∧
             Forall (translates_into "en") tail) ∧
  (fresh_entry (transcript_cache s) (url, "en") (now s) = None →
     (∀ e s1, get_transcript env url "en" s = (Raise e, s1) →
        summary_action env url s
        = (Ok (),
           show_all
             [logger_error ("Error in summary generation: " +:+ str_exn e);
              st_error "An error occurred while generating the summary. Please try again."]
             s1)) ∧
     (∀ d s1, get_transcript env url "en" s = (Ok d, s1) →
        summary_action env url s = summarise d (remember (url, "en") d s1))) ∧
  (∀ d, fresh_entry (transcript_cache s) (url, "en") (now s) = Some d →
     summary_action env url s = summarise d s) ∧
  (∀ vid, extract_video_id url = Ok vid →
     summary_btn w = true → ask_btn w = false → transcript_btn w = false →
     script env (with_language lang w) s
     = (Ok (),
        show (st_markdown "### Ask AI about the video")
          (summary_action env url (show_all (page_head vid) s)).2)) ∧
  (fresh_entry (transcript_cache s) (url, lang) (now s) = None →
     (∀ e s1, get_transcript env url lang s = (Raise e, s1) →
        transcript_action env url lang s
        = (Ok (),
           show (st_error ("An error occurred while fetching transcript: " +:+ str_exn e))
             s1)) ∧
     (∀ d s1, get_transcript env url lang s = (Ok d, s1) →
        transcript_action env url lang s
        = (Ok (),
           show_all
             [st_info ("Original video language detected: " +:+ original_language d);
              st_markdown "### Video Transcription";
              st_write (text d)]
             (remember (url, lang) d s1)))) ∧
  (∃ tail, calls (transcript_action env url lang s).2 = calls s ++ tail ∧
           Forall (translates_into lang) tail).
Proof.
  intros url summarise.
  split; [|split; [|split; [|split; [|split]]]].
  - intros Hbtn. split; [now apply script_with_language | now apply appends_script].
  - intros Hmiss. split.
    + intros e s1 Hget. unfold summary_action.
      erewrite (try_raise _ _ _ _ e).
      2:{ apply bind_raise. rewrite get_cached_transcript_miss by exact Hmiss.
          now rewrite Hget. }
      erewrite bind_ok; [|reflexivity].
      unfold st. now rewrite !show_as_show_all, show_all_show_all.
    + intros d s1 Hget. unfold summary_action, summarise.
      erewrite try_bind_ok; [reflexivity|].
      rewrite get_cached_transcript_miss by exact Hmiss. now rewrite Hget.
  - intros d Hhit. unfold summary_action, summarise.
    erewrite try_bind_ok; [reflexivity|].
    unfold get_cached_transcript. now apply cache_data_hit.
  - intros vid Hex Hsum Hask Hbtn.
    rewrite script_with_language by exact Hbtn.
    assert (Hurl : url ≠ "") by (intros E; rewrite E in Hex; discriminate).
    unfold script. fold url.
    erewrite bind_ok; [|reflexivity].
    rewrite bool_decide_eq_false_2 by exact Hurl.
    apply try_ok.
    erewrite bind_ok; [|unfold lift; now rewrite Hex].
    erewrite bind_ok; [|reflexivity].
    erewrite bind_ok; [|reflexivity].
    unfold st. rewrite !show_as_show_all, !show_all_show_all.
    rewrite Hsum, Hask, Hbtn, andb_false_r. cbn [when app].
    erewrite bind_ok; [|apply summary_action_returns].
    erewrite bind_ok; [|reflexivity].
    erewrite bind_ok; [|reflexivity].
    reflexivity.
  - intros Hmiss. split.
    + intros e s1 Hget. unfold transcript_action.
      erewrite (try_raise _ _ _ _ e); [reflexivity|].
      apply bind_raise. rewrite get_cached_transcript_miss by exact Hmiss. now rewrite Hget.
    + intros d s1 Hget. unfold transcript_action.
      apply try_ok. erewrite bind_ok.
      2:{ rewrite get_cached_transcript_miss by exact Hmiss. now rewrite Hget. }
      erewrite bind_ok; [|reflexivity].
      erewrite bind_ok; [|reflexivity].
      unfold st. now rewrite !show_as_show_all, !show_all_show_all.
  - apply appends_transcript_action.
Qed.

End ButtonLanguages.

(* ===================================================================== *)
(** * The order of start-up                                               *)
(* ===================================================================== *)

(** X17.  Start-up builds the client, writes the style sheet and loads the
    speech-to-text model, in this order.  It is ready exactly when both the
    client and the model are; then the style sheet is the one thing shown
    after the client step and the model is the one thing loaded.  When the
    client step stops, the style sheet is not written, the model is never
    loaded and start-up ends in the state the client step left.  When the
    model cannot be loaded, start-up stops after showing the style sheet and
    then the banner of the model. *)
Theorem startup_order (h : Host) (b : Boot) :
  let client := get_groq_client h b in
  (∀ c m, (startup h b).1 = Ready (c, m) ↔
          client.1 = Ready c ∧ whisper_load_model h "base" = Ok m) ∧
  (client.1 = Stopped → startup h b = (Stopped, client.2)) ∧
  (∀ c m, client.1 = Ready c → whisper_load_model h "base" = Ok m →
          boot_calls (startup h b).2 = boot_calls client.2 ++ [CallLoadModel "base"] ∧
          boot_screen (startup h b).2 = boot_screen client.2 ++ [st_markdown page_style]) ∧
  (∀ c e, client.1 = Ready c → whisper_load_model h "base" = Raise e →
          (startup h b).1 = Stopped ∧
          boot_calls (startup h b).2 = boot_calls client.2 ++ [CallLoadModel "base"] ∧
          boot_screen (startup h b).2
          = boot_screen client.2 ++ [st_markdown page_style; whisper_banner]).
Proof.
  unfold startup, load_whisper_model.
  destruct (get_groq_client h b) as [[c0|] b1]; cbn [fst snd].
  - destruct (whisper_load_model h "base") as [m0|e0].
    + split; [|split; [|split]]; [|discriminate| |discriminate].
      * intros c m. split; [intros [= <- <-]; auto | intros [[= <-] [= <-]]; reflexivity].
      * intros c m _ _. split; reflexivity.
    + split; [|split; [|split]]; [|discriminate|discriminate|].
      * intros c m. split; [discriminate | intros [_ ?]; discriminate].
      * intros c e _ _. cbn. rewrite <- app_assoc. repeat split.
  - split; [|split; [|split]]; [|reflexivity|discriminate|discriminate].
    intros c m. split; [discriminate | intros [? _]; discriminate].
Qed.

(* ===================================================================== *)
(** * The sources, the buttons and start-up at concrete inputs            *)
(* ===================================================================== *)


Lemma text_is_the_joined_source_witness :
  (∃ vid tl,
     getitem (PyStr.split "v=" long_url) 1 = Ok vid ∧
     list_transcripts hindi_only vid = Ok tl ∧
     ((∃ t t' segs,
         (find_manually_created_transcript hindi_only tl supported_languages = Ok t ∨
          ∃ e, find_manually_created_transcript hindi_only tl supported_languages = Raise e ∧
               find_generated_transcript hindi_only tl supported_languages = Ok t) ∧
         translated hindi_only t "en" = Ok t' ∧
         fetch hindi_only t' = Ok segs ∧
         text hindi_result = PyStr.join " " (snippet_text <$> segs) ∧
         original_language hindi_result = language_code t ∧
         (text hindi_result = "" ↔
          snippet_text <$> segs = [] ∨ snippet_text <$> segs = [""])) ∨
      (∃ e1 e2 strm d,
         find_manually_created_transcript hindi_only tl supported_languages = Raise e1 ∧
         find_generated_transcript hindi_only tl supported_languages = Raise e2 ∧
         first_audio_stream hindi_only long_url = Ok (Some strm) ∧
         mkdtemp hindi_only (fs initial_state) = Ok d ∧
         stream_download hindi_only strm d "audio.mp4" = Ok () ∧
         whisper_transcribe hindi_only (os_path_join d "audio.mp4")
         = Ok (text hindi_result) ∧
         original_language hindi_result = "auto-detected"))) ∧
  (∃ vid tl,
     getitem (PyStr.split "v=" long_url) 1 = Ok vid ∧
     list_transcripts no_captions vid = Ok tl ∧
     ((∃ t t' segs,
         (find_manually_created_transcript no_captions tl supported_languages = Ok t ∨
          ∃ e, find_manually_created_transcript no_captions tl supported_languages = Raise e ∧
               find_generated_transcript no_captions tl supported_languages = Ok t) ∧
         translated no_captions t "en" = Ok t' ∧
         fetch no_captions t' = Ok segs ∧
         text spoken_words_result = PyStr.join " " (snippet_text <$> segs) ∧
         original_language spoken_words_result = language_code t ∧
         (text spoken_words_result = "" ↔
          snippet_text <$> segs = [] ∨ snippet_text <$> segs = [""])) ∨
      (∃ e1 e2 strm d,
         find_manually_created_transcript no_captions tl supported_languages = Raise e1 ∧
         find_generated_transcript no_captions tl supported_languages = Raise e2 ∧
         first_audio_stream no_captions long_url = Ok (Some strm) ∧
         mkdtemp no_captions (fs initial_state) = Ok d ∧
         stream_download no_captions strm d "audio.mp4" = Ok () ∧
         whisper_transcribe no_captions (os_path_join d "audio.mp4")
         = Ok (text spoken_words_result) ∧
         original_language spoken_words_result = "auto-detected"))).
Proof.
  split.
  - apply (text_is_the_joined_source hindi_only long_url "en" initial_state
             (get_transcript hindi_only long_url "en" initial_state).2).
    vm_compute. reflexivity.
  - apply (text_is_the_joined_source no_captions long_url "en" initial_state
             (get_transcript no_captions long_url "en" initial_state).2).
    vm_compute. reflexivity.
Defined.

Lemma summary_resolves_in_english_witness :
  calls (script hindi_only (with_language "fr" summary_only) initial_state).2
  = [CallListTranscripts "abc123";
     CallFindManual [hindi_generated] supported_languages;
     CallFindGenerated [hindi_generated] supported_languages;
     CallTranslate hindi_generated "en";
     CallFetch {| track_video := "abc123"; language_code := "en"; is_generated := true |};
     CallChatCompletion (summary_request "namaste duniya")] ∧
  transcript_cache (script hindi_only (with_language "fr" summary_only) initial_state).2
    !! (long_url, "en") = Some (hindi_result, 0) ∧
  transcript_cache (script hindi_only (with_language "fr" summary_only) initial_state).2
    !! (long_url, "fr") = None.
Proof.
  destruct (summary_resolves_in_english hindi_only summary_only "fr" initial_state)
    as (_ & _ & _ & Hrun & _).
  rewrite (Hrun "abc123" eq_refl eq_refl eq_refl eq_refl).
  destruct (summary_resolves_in_english hindi_only summary_only "fr"
              (show_all (page_head "abc123") initial_state)) as (_ & Hmiss & _).
  destruct (Hmiss eq_refl) as [_ Hresolved].
  rewrite (Hresolved hindi_result
             (get_transcript hindi_only long_url "en"
                (show_all (page_head "abc123") initial_state)).2)
    by (vm_compute; reflexivity).
  vm_compute. repeat split.
Defined.

Lemma startup_order_witness :
  (startup host_without_model fresh_boot).1 = Stopped ∧
  boot_calls (startup host_without_model fresh_boot).2
  = [CallGroq "gsk_test"; CallLoadModel "base"] ∧
  boot_screen (startup host_without_model fresh_boot).2
  = [st_markdown page_style; whisper_banner].
Proof.
  destruct (startup_order host_without_model fresh_boot) as (_ & _ & _ & Hmodel).
  exact (Hmodel (groq_client "gsk_test") (LibraryError "No module named 'whisper'")
           eq_refl eq_refl).
Defined.
